(** * Break-even / cost-volume-profit calculator

    A shallow embedding of the calculation code of the repository:

    - [Index.calculateResults]      (costbreak-viz-15-main/src/pages/Index.tsx)
    - [ResultsTable.profitMargin]   (src/components/ResultsTable.tsx)
    - [AnalysisDashboard.useEffect_recalculate] and
      [AnalysisDashboard.handleInputChange] (src/components/AnalysisDashboard.tsx)
    - [InputField.handleChange]     (the InputField component)

    Numbers.  The code is embedded twice.

    In the first embedding (modules [JS], [Index], [ResultsTable],
    [AnalysisDashboard]) a JavaScript [number] holding a finite value is a
    rational [Q] and [+ - * /] are the exact operations of [Q]: rounding
    to binary64, overflow and underflow are outside it.  It carries the
    structure of the table and of the chart and the algebraic identities,
    which are statements of exact arithmetic.  Two rationals denoting
    the same number are related by [==] ([Qeq]).  [Qdiv] is total with
    [x / 0 == 0]; every division of the source sits behind a guard that
    makes its divisor non-zero, which is proved below, so that value is
    never observed.  The values a [number] has besides the finite ones
    ([NaN], [Infinity]) arise there from [parseFloat] only and are
    modelled in the input-handling layer by the type [number].

    In the second embedding (modules [Binary64], [Index64],
    [Dashboard64]) a [number] is a binary64 float with the arithmetic
    and the comparisons of the language, the toasts are a log that
    [calculateResults] and the effect thread, and the dashboard's state
    is a record of its five cells.  What depends on rounding, on
    overflow or underflow, on [NaN], on the toasts or on a loop ending
    is stated there. *)

From Stdlib Require Import QArith Qround Qabs ZArith List Bool Lia Lqa.
From Stdlib Require Import String Ascii.
From Stdlib Require Import Sorting.Sorted Sorting.Permutation.
From Stdlib Require Import Floats.
Import ListNotations.

Set Warnings "-inexact-float".

Local Open Scope Q_scope.

(** ** The JavaScript operations the source uses *)

Module JS.

(** [a < b] on numbers; [a <= b] is [Qle_bool]. *)
Definition Qlt_bool (a b : Q) : bool := negb (Qle_bool b a).

(** [Math.max(a, b)], [Math.min(a, b)], [Math.abs(a)]. *)
Definition Math_max (a b : Q) : Q := if Qle_bool a b then b else a.
Definition Math_min (a b : Q) : Q := if Qle_bool a b then a else b.
Definition Math_abs (a : Q) : Q := Qabs a.

(** [Math.ceil], [Math.floor]: an integer, again as a number. *)
Definition Math_ceil (a : Q) : Q := inject_Z (Qceiling a).
Definition Math_floor (a : Q) : Q := inject_Z (Qfloor a).

(** [for (let q = start; q <= bound; q += step) { acc.push(body(q)); }]

    The loop threads its counter and the array it pushes to.  [fuel]
    bounds the number of times the loop test is evaluated; [None] means
    the fuel ran out before the test failed. *)
Fixpoint for_push {A : Type} (fuel : nat) (q step bound : Q)
         (body : Q -> A) (acc : list A) : option (list A) :=
  match fuel with
  | O => None
  | S fuel' =>
      if Qle_bool q bound
      then for_push fuel' (q + step) step bound body (acc ++ [body q])
      else Some acc
  end.

(** Fuel that lets a loop with [1 <= step] run to its exit. *)
Definition loop_fuel (start bound : Q) : nat :=
  S (S (Z.to_nat (Qfloor (bound - start)))).

(** [arr.some(pred)]. *)
Definition Array_some {A : Type} (pred : A -> bool) (arr : list A) : bool :=
  existsb pred arr.

(** [arr.sort(compareFn)].  The language requires the sort to be stable,
    so for a consistent comparator the result is the one of the stable
    insertion sort: [x] goes before the first [y] with
    [compareFn(x, y) <= 0]. *)
Fixpoint sort_insert {A : Type} (compareFn : A -> A -> Q) (x : A)
         (l : list A) : list A :=
  match l with
  | [] => [x]
  | y :: l' =>
      if Qle_bool (compareFn x y) 0 then x :: y :: l'
      else y :: sort_insert compareFn x l'
  end.

Definition Array_sort {A : Type} (compareFn : A -> A -> Q)
           (arr : list A) : list A :=
  fold_right (sort_insert compareFn) [] arr.

(** *** Numbers read from text

    [parseFloat] can return [NaN] and the infinities besides the finite
    values, so its result has its own type. *)
Inductive number : Type :=
| NaN
| Infinity (negative : bool)
| Finite (q : Q).

(** [x || y] on numbers: [NaN] and zero are the falsy ones. *)
Definition truthy (x : number) : bool :=
  match x with
  | NaN => false
  | Infinity _ => true
  | Finite q => negb (Qeq_bool q 0)
  end.
Definition or_else (x y : number) : number := if truthy x then x else y.

(** The finite value of a number, when it has one. *)
Definition finite_value (x : number) : option Q :=
  match x with Finite q => Some q | _ => None end.

(** White space [parseFloat] skips (the ASCII part of it): TAB, LF, VT,
    FF, CR and the space. *)
Definition isWhiteSpace (c : ascii) : bool :=
  match nat_of_ascii c with
  | 9%nat | 10%nat | 11%nat | 12%nat | 13%nat | 32%nat => true
  | _ => false
  end.

Fixpoint trimStart (s : string) : string :=
  match s with
  | EmptyString => EmptyString
  | String c s' => if isWhiteSpace c then trimStart s' else s
  end.

Definition digitOf (c : ascii) : option Z :=
  let n := Z.of_N (N_of_ascii c) in
  if ((48 <=? n) && (n <=? 57))%Z then Some (n - 48)%Z else None.

(** Reads the longest run of decimal digits at the head of [s]: the
    value accumulated onto [acc], the number of digits read added to
    [count], and the rest of the string. *)
Fixpoint readDigits (s : string) (acc : Z) (count : nat) : Z * nat * string :=
  match s with
  | EmptyString => (acc, count, s)
  | String c s' =>
      match digitOf c with
      | Some d => readDigits s' (10 * acc + d)%Z (S count)
      | None => (acc, count, s)
      end
  end.

(** [ExponentPart]: [e] or [E], an optional sign and at least one
    digit; anything else is no exponent and counts as [0]. *)
Definition readExponent (s : string) : Z :=
  match s with
  | String c r =>
      if (Ascii.eqb c "e" || Ascii.eqb c "E")%bool then
        match r with
        | String c' r' =>
            if Ascii.eqb c' "-" then
              let '(e, n, _) := readDigits r' 0%Z 0%nat in
              if (n =? 0)%nat then 0%Z else (- e)%Z
            else if Ascii.eqb c' "+" then
              let '(e, n, _) := readDigits r' 0%Z 0%nat in
              if (n =? 0)%nat then 0%Z else e
            else
              let '(e, n, _) := readDigits r 0%Z 0%nat in
              if (n =? 0)%nat then 0%Z else e
        | EmptyString => 0%Z
        end
      else 0%Z
  | EmptyString => 0%Z
  end.

Definition isDigit (c : ascii) : bool :=
  match digitOf c with Some _ => true | None => false end.

(** Does a decimal literal start here: a digit, or a point and a digit. *)
Definition startsDecimal (u : string) : bool :=
  match u with
  | String c r =>
      isDigit c
      || (Ascii.eqb c "."
          && match r with String c' _ => isDigit c' | EmptyString => false end)
  | EmptyString => false
  end.

(** The value of the longest decimal literal at the head of [u]:
    digits, an optional fraction, an optional exponent. *)
Definition decimalValue (u : string) : Q :=
  let '(m1, n1, r1) := readDigits u 0%Z 0%nat in
  let '(m2, n2, r2) :=
    match r1 with
    | String c r => if Ascii.eqb c "." then readDigits r m1 0%nat else (m1, 0%nat, r1)
    | EmptyString => (m1, 0%nat, r1)
    end in
  inject_Z m2 * 10 ^ (readExponent r2 - Z.of_nat n2).

(** The longest prefix that is a [StrUnsignedDecimalLiteral]:
    [Infinity] or a decimal literal; [NaN] when there is none. *)
Definition parseUnsigned (u : string) : number :=
  if String.prefix "Infinity" u then Infinity false
  else if startsDecimal u then Finite (decimalValue u)
  else NaN.

Definition negate (x : number) : number :=
  match x with
  | NaN => NaN
  | Infinity s => Infinity (negb s)
  | Finite q => Finite (- q)
  end.

(** [parseFloat(string)]: leading white space, an optional sign, the
    literal. *)
Definition parseFloat (s : string) : number :=
  match trimStart s with
  | String c u =>
      if Ascii.eqb c "-" then negate (parseUnsigned u)
      else if Ascii.eqb c "+" then parseUnsigned u
      else parseUnsigned (String c u)
  | EmptyString => parseUnsigned EmptyString
  end.

End JS.

(** ** The basic calculator: [pages/Index.tsx] *)

Module Index.
Import JS.

Record FinancialData : Type := mkFinancialData {
  units : Q;
  fixedCost : Q;
  variableCostPerUnit : Q;
  sellingPricePerUnit : Q
}.

Record CalculationResults : Type := mkCalculationResults {
  fixedCostPerUnit : Q;
  totalVariableCost : Q;
  totalCost : Q;
  totalCostPerUnit : Q;
  salesRevenue : Q;
  profitOrLoss : Q;
  breakEvenUnits : Q;
  breakEvenRevenue : Q
}.

(** The argument of a [toast({...})] call. *)
Record Toast : Type := mkToast {
  title : string;
  description : string;
  variant : string
}.

Definition warningToast : Toast :=
  mkToast "Advertencia"
          "El precio de venta debe ser mayor al costo variable por unidad para alcanzar el punto de equilibrio."
          "destructive".

(** [calculateResults]: the toasts it emits, in order, and the value it
    returns ([None] is [null]). *)
Definition calculateResults (inputData : FinancialData)
  : list Toast * option CalculationResults :=
  let units := units inputData in
  let fixedCost := fixedCost inputData in
  let variableCostPerUnit := variableCostPerUnit inputData in
  let sellingPricePerUnit := sellingPricePerUnit inputData in
  if Qle_bool sellingPricePerUnit variableCostPerUnit then
    ([warningToast], None)
  else if Qle_bool units 0 || Qlt_bool fixedCost 0
          || Qlt_bool variableCostPerUnit 0 || Qle_bool sellingPricePerUnit 0 then
    ([], None)
  else
    let fixedCostPerUnit := fixedCost / units in
    let totalVariableCost := variableCostPerUnit * units in
    let totalCost := fixedCost + totalVariableCost in
    let totalCostPerUnit := totalCost / units in
    let salesRevenue := sellingPricePerUnit * units in
    let profitOrLoss := salesRevenue - totalCost in
    let breakEvenUnits := fixedCost / (sellingPricePerUnit - variableCostPerUnit) in
    let breakEvenRevenue := breakEvenUnits * sellingPricePerUnit in
    ([], Some (mkCalculationResults fixedCostPerUnit totalVariableCost totalCost
                 totalCostPerUnit salesRevenue profitOrLoss
                 breakEvenUnits breakEvenRevenue)).

(** The value [calculateResults] returns and the toasts it emits. *)
Definition returned (inputData : FinancialData) : option CalculationResults :=
  snd (calculateResults inputData).
Definition emitted (inputData : FinancialData) : list Toast :=
  fst (calculateResults inputData).

(** The initial state of the form. *)
Definition initialData : FinancialData := mkFinancialData 1000 50000 20 35.

(** [handleInputChange(field, value)]: [setData(prev => ({...prev,
    [field]: value}))]. *)
Inductive Field : Type :=
| units_field | fixedCost_field | variableCostPerUnit_field
| sellingPricePerUnit_field.

Definition handleInputChange (field : Field) (value : Q)
           (prev : FinancialData) : FinancialData :=
  match field with
  | units_field =>
      mkFinancialData value (fixedCost prev) (variableCostPerUnit prev)
                      (sellingPricePerUnit prev)
  | fixedCost_field =>
      mkFinancialData (units prev) value (variableCostPerUnit prev)
                      (sellingPricePerUnit prev)
  | variableCostPerUnit_field =>
      mkFinancialData (units prev) (fixedCost prev) value
                      (sellingPricePerUnit prev)
  | sellingPricePerUnit_field =>
      mkFinancialData (units prev) (fixedCost prev) (variableCostPerUnit prev)
                      value
  end.

(** [isValidData]: [results !== null].  The page renders the results
    table when it holds, and the placeholder with the warning banner
    when it does not. *)
Definition isValidData (data : FinancialData) : bool :=
  match returned data with
  | Some _ => true
  | None => false
  end.

End Index.

(** ** The text field of the basic calculator: the InputField component *)

Module InputField.
Import JS.

(** [handleChange]: the value handed to [onChange] for the text
    [e.target.value]. *)
Definition handleChange (value : string) : number :=
  let newValue := or_else (parseFloat value) (Finite 0) in
  newValue.

End InputField.

(** ** The consumer of the basic results: [components/ResultsTable.tsx] *)

Module ResultsTable.

Definition profitMargin (results : Index.CalculationResults) : Q :=
  (Index.profitOrLoss results / Index.salesRevenue results) * 100.

End ResultsTable.

(** ** The extended dashboard: [components/AnalysisDashboard.tsx] *)

Module AnalysisDashboard.
Import JS.

Record FormData : Type := mkFormData {
  units : Q;
  fixedCost : Q;
  variableCostPerUnit : Q;
  sellingPricePerUnit : Q;
  taxRate : Q
}.

Record SensitivityChanges : Type := mkSensitivityChanges {
  priceChange : Q;
  variableCostChange : Q;
  fixedCostChange : Q;
  taxRateChange : Q
}.

Record CalculationResults : Type := mkCalculationResults {
  breakEvenUnits : Q;
  breakEvenRevenue : Q;
  totalRevenue : Q;
  totalCost : Q;
  profitBeforeTax : Q;
  netProfit : Q
}.

Record TableData : Type := mkTableData {
  cantidad : Q;
  costoFijoTotal : Q;
  costoVariableTotal : Q;
  costoTotal : Q;
  ingresoTotal : Q;
  gananciaOPerdida : Q;
  utilidadNeta : Q
}.

(** The fields of [ChartData] carry the prefix [chart_]: [cantidad],
    [costoTotal], [ingresoTotal] and [utilidadNeta] are also fields of
    [TableData]. *)
Record ChartData : Type := mkChartData {
  chart_cantidad : Q;
  chart_costoTotal : Q;
  chart_ingresoTotal : Q;
  chart_costoFijo : Q;
  chart_utilidadAntesImpuestos : Q;
  chart_utilidadNeta : Q
}.

(** The three state cells the effect writes: [setResults],
    [setTableData], [setChartData]. *)
Record Outputs : Type := mkOutputs {
  results : CalculationResults;
  tableData : list TableData;
  chartData : list ChartData
}.

(** The form and the sliders as the component initialises them. *)
Definition initialFormData : FormData := mkFormData 100 10000 15 25 30.
Definition initialSensitivity : SensitivityChanges := mkSensitivityChanges 0 0 0 0.

(** "Apply sensitivity adjustments". *)
Definition adjustedSellingPrice (f : FormData) (s : SensitivityChanges) : Q :=
  sellingPricePerUnit f * (1 + priceChange s / 100).
Definition adjustedVariableCost (f : FormData) (s : SensitivityChanges) : Q :=
  variableCostPerUnit f * (1 + variableCostChange s / 100).
Definition adjustedFixedCost (f : FormData) (s : SensitivityChanges) : Q :=
  fixedCost f * (1 + fixedCostChange s / 100).
Definition adjustedTaxRate (f : FormData) (s : SensitivityChanges) : Q :=
  taxRate f * (1 + taxRateChange s / 100).
Definition contributionMargin (f : FormData) (s : SensitivityChanges) : Q :=
  adjustedSellingPrice f s - adjustedVariableCost f s.

(** The body of a table row at quantity [q]; the source writes it out
    twice, in the loop and for the user's quantity. *)
Definition tableRow (adjFixed adjVar adjPrice adjTax q : Q) : TableData :=
  let costoVariableTotal := q * adjVar in
  let costoTotal := adjFixed + costoVariableTotal in
  let ingresoTotal := q * adjPrice in
  let gananciaOPerdida := ingresoTotal - costoTotal in
  let utilidadNeta := gananciaOPerdida * (1 - adjTax / 100) in
  mkTableData q adjFixed costoVariableTotal costoTotal ingresoTotal
              gananciaOPerdida utilidadNeta.

(** The body of a chart point at [quantity]: the grid loop and the
    break-even point. *)
Definition chartPoint (adjFixed adjVar adjPrice adjTax quantity : Q) : ChartData :=
  let costoTotal := adjFixed + quantity * adjVar in
  let ingresoTotal := quantity * adjPrice in
  let utilidadAntesImpuestos := ingresoTotal - costoTotal in
  let utilidadNeta := utilidadAntesImpuestos * (1 - adjTax / 100) in
  mkChartData quantity costoTotal ingresoTotal adjFixed
              utilidadAntesImpuestos utilidadNeta.

(** [p => Math.abs(p.cantidad - x) < step / 2] *)
Definition nearPoint (x step : Q) (p : ChartData) : bool :=
  Qlt_bool (Math_abs (chart_cantidad p - x)) (step / 2).

(** [(a, b) => a.cantidad - b.cantidad] *)
Definition byCantidad (a b : ChartData) : Q :=
  chart_cantidad a - chart_cantidad b.

Definition resetResults : CalculationResults := mkCalculationResults 0 0 0 0 0 0.
Definition resetOutputs : Outputs := mkOutputs resetResults [] [].

(** "Generate table data (quantities 1-10, plus user input if > 10)". *)
Definition generateTable (units adjFixed adjVar adjPrice adjTax : Q)
  : option (list TableData) :=
  let maxQuantity := Math_max 10 units in
  let bound := Math_min 10 maxQuantity in
  match for_push (loop_fuel 1 bound) 1 1 bound
                 (tableRow adjFixed adjVar adjPrice adjTax) [] with
  | None => None
  | Some tableRows =>
      Some (if Qlt_bool 10 units
            then tableRows ++ [tableRow adjFixed adjVar adjPrice adjTax units]
            else tableRows)
  end.

(** "Generate chart data": the grid, the two forced points, the sort. *)
Definition chartRangeOf (units breakEvenUnits : Q) : Q :=
  let maxUnits := Math_max units breakEvenUnits in
  Math_ceil (maxUnits * (12 # 10)).
Definition stepOf (chartRange : Q) : Q :=
  Math_max 1 (Math_floor (chartRange / 20)).

Definition generateChart (units breakEvenUnits adjFixed adjVar adjPrice adjTax : Q)
           (totalCost totalRevenue profitBeforeTax netProfit : Q)
  : option (list ChartData) :=
  let chartRange := chartRangeOf units breakEvenUnits in
  let step := stepOf chartRange in
  match for_push (loop_fuel 0 chartRange) 0 step chartRange
                 (chartPoint adjFixed adjVar adjPrice adjTax) [] with
  | None => None
  | Some chartPoints =>
      let chartPoints :=
        if negb (Array_some (nearPoint breakEvenUnits step) chartPoints)
        then chartPoints ++ [chartPoint adjFixed adjVar adjPrice adjTax breakEvenUnits]
        else chartPoints in
      let chartPoints :=
        if negb (Array_some (nearPoint units step) chartPoints)
        then chartPoints ++ [mkChartData units totalCost totalRevenue adjFixed
                                         profitBeforeTax netProfit]
        else chartPoints in
      Some (Array_sort byCantidad chartPoints)
  end.

(** The effect that recalculates on every change of the form or of
    the sliders.  [None] only if a loop of the model ran out of fuel,
    which [useEffect_recalculate_total] excludes. *)
Definition useEffect_recalculate (formData : FormData)
           (sensitivityChanges : SensitivityChanges) : option Outputs :=
  let units := units formData in
  let adjustedSellingPrice := adjustedSellingPrice formData sensitivityChanges in
  let adjustedVariableCost := adjustedVariableCost formData sensitivityChanges in
  let adjustedFixedCost := adjustedFixedCost formData sensitivityChanges in
  let adjustedTaxRate := adjustedTaxRate formData sensitivityChanges in
  let contributionMargin := adjustedSellingPrice - adjustedVariableCost in
  if Qlt_bool 0 contributionMargin then
    let breakEvenUnits := adjustedFixedCost / contributionMargin in
    let breakEvenRevenue := breakEvenUnits * adjustedSellingPrice in
    let totalRevenue := units * adjustedSellingPrice in
    let totalCost := adjustedFixedCost + units * adjustedVariableCost in
    let profitBeforeTax := totalRevenue - totalCost in
    let netProfit := profitBeforeTax * (1 - adjustedTaxRate / 100) in
    let results := mkCalculationResults breakEvenUnits breakEvenRevenue totalRevenue
                                        totalCost profitBeforeTax netProfit in
    match generateTable units adjustedFixedCost adjustedVariableCost
                        adjustedSellingPrice adjustedTaxRate with
    | None => None
    | Some tableRows =>
        match generateChart units breakEvenUnits adjustedFixedCost
                            adjustedVariableCost adjustedSellingPrice adjustedTaxRate
                            totalCost totalRevenue profitBeforeTax netProfit with
        | None => None
        | Some chartPoints => Some (mkOutputs results tableRows chartPoints)
        end
    end
  else
    Some resetOutputs.

(** [handleInputChange(field)(e)]: the text is cut to 12 characters,
    parsed, and the number is stored in [field]. *)
Inductive Field : Type :=
| units_field | fixedCost_field | variableCostPerUnit_field
| sellingPricePerUnit_field | taxRate_field.

Definition limit12 (value : string) : string :=
  if (12 <? String.length value)%nat then substring 0 12 value else value.

Definition numericValue (value : string) : number :=
  let value := limit12 value in
  or_else (parseFloat value) (Finite 0).

Definition setField (field : Field) (v : Q) (prev : FormData) : FormData :=
  match field with
  | units_field =>
      mkFormData v (fixedCost prev) (variableCostPerUnit prev)
                 (sellingPricePerUnit prev) (taxRate prev)
  | fixedCost_field =>
      mkFormData (units prev) v (variableCostPerUnit prev)
                 (sellingPricePerUnit prev) (taxRate prev)
  | variableCostPerUnit_field =>
      mkFormData (units prev) (fixedCost prev) v
                 (sellingPricePerUnit prev) (taxRate prev)
  | sellingPricePerUnit_field =>
      mkFormData (units prev) (fixedCost prev) (variableCostPerUnit prev)
                 v (taxRate prev)
  | taxRate_field =>
      mkFormData (units prev) (fixedCost prev) (variableCostPerUnit prev)
                 (sellingPricePerUnit prev) v
  end.

(** The form after the change; [None] when the number stored is an
    infinity, which the rational fields of [FormData] do not hold. *)
Definition handleInputChange (field : Field) (value : string)
           (prev : FormData) : option FormData :=
  match finite_value (numericValue value) with
  | Some v => Some (setField field v prev)
  | None => None
  end.



End AnalysisDashboard.



(** ** The preconditions of the specification

    Section 4.1 of the specification: [units > 0], [fixedCost >= 0],
    [variableCostPerUnit >= 0], [sellingPricePerUnit > 0], and a strictly
    positive contribution margin.  These predicates follow the
    specification's words; the code's own tests are in the embedding. *)

Module Spec.

(** A precondition is violated. *)
Definition violates (units fixedCost variableCostPerUnit sellingPricePerUnit : Q) : Prop :=
  units <= 0 \/ fixedCost < 0 \/ variableCostPerUnit < 0 \/ sellingPricePerUnit <= 0.

(** All preconditions hold. *)
Definition preconditions (units fixedCost variableCostPerUnit sellingPricePerUnit : Q) : Prop :=
  0 < units /\ 0 <= fixedCost /\ 0 <= variableCostPerUnit /\ 0 < sellingPricePerUnit.

(** An accepted record of the basic calculator. *)
Definition accepted_basic (d : Index.FinancialData) : Prop :=
  preconditions (Index.units d) (Index.fixedCost d)
                (Index.variableCostPerUnit d) (Index.sellingPricePerUnit d)
  /\ 0 < Index.sellingPricePerUnit d - Index.variableCostPerUnit d.

Definition violates_basic (d : Index.FinancialData) : Prop :=
  violates (Index.units d) (Index.fixedCost d)
           (Index.variableCostPerUnit d) (Index.sellingPricePerUnit d).


Definition violates_extended (f : AnalysisDashboard.FormData) : Prop :=
  violates (AnalysisDashboard.units f) (AnalysisDashboard.fixedCost f)
           (AnalysisDashboard.variableCostPerUnit f)
           (AnalysisDashboard.sellingPricePerUnit f).

(** The quantities [a, a + step, a + 2 * step, ...], [n] of them. *)
Fixpoint progression (a step : Q) (n : nat) : list Q :=
  match n with
  | O => []
  | S n' => a :: progression (a + step) step n'
  end.

(** "sample quantities from 0 to [chartRange] using a step size of
    [step]": [0, step, 2 * step, ...] as far as [chartRange]. *)
Definition grid (chartRange step : Q) : list Q :=
  if Qle_bool 0 chartRange
  then progression 0 step (S (Z.to_nat (Qfloor (chartRange / step))))
  else [].

(** "within half a step" of [x]. *)
Definition within_half_step (x step q : Q) : bool :=
  JS.Qlt_bool (Qabs (q - x)) (step / 2).

(** A forced quantity is appended if no existing one is within half a
    step of it. *)
Definition force (x step : Q) (qs : list Q) : list Q :=
  if existsb (within_half_step x step) qs then qs else qs ++ [x].

(** The quantities of the chart before the sort: the grid, then the
    break-even quantity, then the target units. *)
Definition chart_quantities (units breakEvenUnits : Q) : list Q :=
  let chartRange := inject_Z (Qceiling (JS.Math_max units breakEvenUnits * (12 # 10))) in
  let step := JS.Math_max 1 (inject_Z (Qfloor (chartRange / 20))) in
  force units step (force breakEvenUnits step (grid chartRange step)).

(** "sorted ascending by quantity": the order on the points that the
    sort establishes, for a key such as the quantity. *)
Definition ascending_by {A : Type} (key : A -> Q) (a b : A) : Prop :=
  key a <= key b.

End Spec.

(** ** Concrete records used in the examples *)

Module Examples.

(** The initial form of the basic calculator with the variable cost
    raised to the price: the contribution margin is zero. *)
Definition zero_margin : Index.FinancialData :=
  Index.mkFinancialData 1000 50000 35 35.

(** The initial form of the basic calculator with [units = 0]. *)
Definition zero_units : Index.FinancialData :=
  Index.mkFinancialData 0 50000 20 35.

(** The initial form of the dashboard with the variable cost raised to
    the price, with [units] set to 0, 5 and 15. *)
Definition form_zero_margin : AnalysisDashboard.FormData :=
  AnalysisDashboard.mkFormData 100 10000 25 25 30.
Definition form_zero_units : AnalysisDashboard.FormData :=
  AnalysisDashboard.mkFormData 0 10000 15 25 30.

(** The price slider at +20 percent. *)
Definition price_up_20 : AnalysisDashboard.SensitivityChanges :=
  AnalysisDashboard.mkSensitivityChanges 20 0 0 0.

End Examples.

(** * The code over binary64

    The embedding above takes numbers as exact rationals.  Where a
    property depends on rounding, on overflow or underflow, on [NaN] or on
    a loop leaving its range, the code is embedded a second time, below,
    over the binary64 numbers the language computes with (Rocq's
    primitive floats): the same functions, line by line, with the
    language's comparisons ([NaN] compares false) and its arithmetic. *)

Module Binary64.
Local Open Scope float_scope.

(** [Math.floor(x)]: [x] itself when it is [NaN], an infinity, a zero
    or has no fraction bits; otherwise the whole number below it, which
    is under [2^53] and so a binary64 number. *)
Definition Math_floor (x : float) : float :=
  match Prim2SF x with
  | S754_finite s m e =>
      if (0 <=? e)%Z then x
      else
        match ((if s then Z.neg m else Z.pos m) / 2 ^ (- e))%Z with
        | Z0 => if s then - 0 else 0
        | Zpos p => SF2Prim (S754_finite false p 0)
        | Zneg p => SF2Prim (S754_finite true p 0)
        end
  | _ => x
  end.

(** [Math.ceil(x)], [Math.abs(x)]. *)
Definition Math_ceil (x : float) : float := - Math_floor (- x).
Definition Math_abs (x : float) : float := abs x.

(** [Math.max(a, b)], [Math.min(a, b)]: [NaN] if either is; of the two
    zeros the positive is the larger. *)
Definition Math_max (a b : float) : float :=
  if is_nan a then a
  else if is_nan b then b
  else if a <? b then b
  else if b <? a then a
  else if get_sign a then b else a.

Definition Math_min (a b : float) : float :=
  if is_nan a then a
  else if is_nan b then b
  else if a <? b then a
  else if b <? a then b
  else if get_sign a then a else b.

(** [for (let q = start; q <= bound; q += step) { acc.push(body(q)); }]
    [fuel] bounds the number of times the test is evaluated; [None]
    means the loop is still running when the fuel is spent. *)
Fixpoint for_push {A : Type} (fuel : nat) (q step bound : float)
         (body : float -> A) (acc : list A) : option (list A) :=
  match fuel with
  | O => None
  | S fuel' =>
      if q <=? bound
      then for_push fuel' (q + step) step bound body (acc ++ [body q])
      else Some acc
  end.

(** [arr.sort(compareFn)]: stable; [x] stays before [y] unless
    [compareFn(x, y) > 0] (a [NaN] result counts as 0). *)
Fixpoint sort_insert {A : Type} (compareFn : A -> A -> float) (x : A)
         (l : list A) : list A :=
  match l with
  | [] => [x]
  | y :: l' =>
      if 0 <? compareFn x y then y :: sort_insert compareFn x l'
      else x :: y :: l'
  end.

Definition Array_sort {A : Type} (compareFn : A -> A -> float)
           (arr : list A) : list A :=
  fold_right (sort_insert compareFn) [] arr.

End Binary64.

(** ** [pages/Index.tsx] over binary64 *)

Module Index64.
Import Binary64.
Local Open Scope float_scope.

Record FinancialData : Type := mkFinancialData {
  units : float;
  fixedCost : float;
  variableCostPerUnit : float;
  sellingPricePerUnit : float
}.

Record CalculationResults : Type := mkCalculationResults {
  fixedCostPerUnit : float;
  totalVariableCost : float;
  totalCost : float;
  totalCostPerUnit : float;
  salesRevenue : float;
  profitOrLoss : float;
  breakEvenUnits : float;
  breakEvenRevenue : float
}.

(** The second test of [calculateResults]:
    [units <= 0 || fixedCost < 0 || variableCostPerUnit < 0 ||
     sellingPricePerUnit <= 0]. *)
Definition invalidInput (d : FinancialData) : bool :=
  (units d <=? 0) || (fixedCost d <? 0)
  || (variableCostPerUnit d <? 0) || (sellingPricePerUnit d <=? 0).

(** [calculateResults], threading the toasts shown so far: [toast(...)]
    appends to them.  The second component is the returned value
    ([None] is [null]). *)
Definition calculateResults (inputData : FinancialData) (toasts : list Index.Toast)
  : list Index.Toast * option CalculationResults :=
  let units := units inputData in
  let fixedCost := fixedCost inputData in
  let variableCostPerUnit := variableCostPerUnit inputData in
  let sellingPricePerUnit := sellingPricePerUnit inputData in
  if sellingPricePerUnit <=? variableCostPerUnit then
    (toasts ++ [Index.warningToast], None)
  else if (units <=? 0) || (fixedCost <? 0)
          || (variableCostPerUnit <? 0) || (sellingPricePerUnit <=? 0) then
    (toasts, None)
  else
    let fixedCostPerUnit := fixedCost / units in
    let totalVariableCost := variableCostPerUnit * units in
    let totalCost := fixedCost + totalVariableCost in
    let totalCostPerUnit := totalCost / units in
    let salesRevenue := sellingPricePerUnit * units in
    let profitOrLoss := salesRevenue - totalCost in
    let breakEvenUnits := fixedCost / (sellingPricePerUnit - variableCostPerUnit) in
    let breakEvenRevenue := breakEvenUnits * sellingPricePerUnit in
    (toasts, Some (mkCalculationResults fixedCostPerUnit totalVariableCost totalCost
                     totalCostPerUnit salesRevenue profitOrLoss
                     breakEvenUnits breakEvenRevenue)).

(** [ResultsTable]'s [profitMargin]. *)
Definition profitMargin (results : CalculationResults) : float :=
  (profitOrLoss results / salesRevenue results) * 100.

(** [handleInputChange(field, value)]. *)
Definition handleInputChange (field : Index.Field) (value : float)
           (prev : FinancialData) : FinancialData :=
  match field with
  | Index.units_field =>
      mkFinancialData value (fixedCost prev) (variableCostPerUnit prev)
                      (sellingPricePerUnit prev)
  | Index.fixedCost_field =>
      mkFinancialData (units prev) value (variableCostPerUnit prev)
                      (sellingPricePerUnit prev)
  | Index.variableCostPerUnit_field =>
      mkFinancialData (units prev) (fixedCost prev) value
                      (sellingPricePerUnit prev)
  | Index.sellingPricePerUnit_field =>
      mkFinancialData (units prev) (fixedCost prev) (variableCostPerUnit prev)
                      value
  end.

End Index64.

(** ** [components/AnalysisDashboard.tsx] over binary64 *)

Module Dashboard64.
Import Binary64.
Local Open Scope float_scope.

Record FormData : Type := mkFormData {
  units : float;
  fixedCost : float;
  variableCostPerUnit : float;
  sellingPricePerUnit : float;
  taxRate : float
}.

Record SensitivityChanges : Type := mkSensitivityChanges {
  priceChange : float;
  variableCostChange : float;
  fixedCostChange : float;
  taxRateChange : float
}.

Record CalculationResults : Type := mkCalculationResults {
  breakEvenUnits : float;
  breakEvenRevenue : float;
  totalRevenue : float;
  totalCost : float;
  profitBeforeTax : float;
  netProfit : float
}.

Record TableData : Type := mkTableData {
  cantidad : float;
  costoFijoTotal : float;
  costoVariableTotal : float;
  costoTotal : float;
  ingresoTotal : float;
  gananciaOPerdida : float;
  utilidadNeta : float
}.

(** As above, the fields of [ChartData] carry the prefix [chart_]. *)
Record ChartData : Type := mkChartData {
  chart_cantidad : float;
  chart_costoTotal : float;
  chart_ingresoTotal : float;
  chart_costoFijo : float;
  chart_utilidadAntesImpuestos : float;
  chart_utilidadNeta : float
}.

(** The state of the component: the five [useState] cells. *)
Record State : Type := mkState {
  formData : FormData;
  sensitivityChanges : SensitivityChanges;
  results : CalculationResults;
  tableData : list TableData;
  chartData : list ChartData
}.

Definition resetResults : CalculationResults := mkCalculationResults 0 0 0 0 0 0.

(** The state as the component initialises it. *)
Definition initialState : State :=
  mkState (mkFormData 100 10000 15 25 30) (mkSensitivityChanges 0 0 0 0)
          resetResults [] [].

(** "Apply sensitivity adjustments". *)
Definition adjustedSellingPrice (st : State) : float :=
  sellingPricePerUnit (formData st)
  * (1 + priceChange (sensitivityChanges st) / 100).
Definition adjustedVariableCost (st : State) : float :=
  variableCostPerUnit (formData st)
  * (1 + variableCostChange (sensitivityChanges st) / 100).
Definition adjustedFixedCost (st : State) : float :=
  fixedCost (formData st)
  * (1 + fixedCostChange (sensitivityChanges st) / 100).
Definition adjustedTaxRate (st : State) : float :=
  taxRate (formData st)
  * (1 + taxRateChange (sensitivityChanges st) / 100).
Definition contributionMargin (st : State) : float :=
  adjustedSellingPrice st - adjustedVariableCost st.

Definition tableRow (adjFixed adjVar adjPrice adjTax q : float) : TableData :=
  let costoVariableTotal := q * adjVar in
  let costoTotal := adjFixed + costoVariableTotal in
  let ingresoTotal := q * adjPrice in
  let gananciaOPerdida := ingresoTotal - costoTotal in
  let utilidadNeta := gananciaOPerdida * (1 - adjTax / 100) in
  mkTableData q adjFixed costoVariableTotal costoTotal ingresoTotal
              gananciaOPerdida utilidadNeta.

Definition chartPoint (adjFixed adjVar adjPrice adjTax quantity : float) : ChartData :=
  let costoTotal := adjFixed + quantity * adjVar in
  let ingresoTotal := quantity * adjPrice in
  let utilidadAntesImpuestos := ingresoTotal - costoTotal in
  let utilidadNeta := utilidadAntesImpuestos * (1 - adjTax / 100) in
  mkChartData quantity costoTotal ingresoTotal adjFixed
              utilidadAntesImpuestos utilidadNeta.

(** [p => Math.abs(p.cantidad - x) < step / 2] *)
Definition nearPoint (x step : float) (p : ChartData) : bool :=
  Math_abs (chart_cantidad p - x) <? step / 2.

(** [(a, b) => a.cantidad - b.cantidad] *)
Definition byCantidad (a b : ChartData) : float :=
  chart_cantidad a - chart_cantidad b.

Definition generateTable (fuel : nat) (units adjFixed adjVar adjPrice adjTax : float)
  : option (list TableData) :=
  let maxQuantity := Math_max 10 units in
  match for_push fuel 1 1 (Math_min 10 maxQuantity)
                 (tableRow adjFixed adjVar adjPrice adjTax) [] with
  | None => None
  | Some tableRows =>
      Some (if 10 <? units
            then tableRows ++ [tableRow adjFixed adjVar adjPrice adjTax units]
            else tableRows)
  end.

Definition chartRangeOf (units breakEvenUnits : float) : float :=
  let maxUnits := Math_max units breakEvenUnits in
  Math_ceil (maxUnits * 1.2).
Definition stepOf (chartRange : float) : float :=
  Math_max 1 (Math_floor (chartRange / 20)).

(** The points after the two forced ones, before the sort. *)
Definition forcePoints (units breakEvenUnits step : float)
           (breakEvenPoint unitsPoint : ChartData) (chartPoints : list ChartData)
  : list ChartData :=
  let chartPoints :=
    if negb (existsb (nearPoint breakEvenUnits step) chartPoints)
    then chartPoints ++ [breakEvenPoint] else chartPoints in
  if negb (existsb (nearPoint units step) chartPoints)
  then chartPoints ++ [unitsPoint] else chartPoints.

Definition generateChart (fuel : nat)
           (units breakEvenUnits adjFixed adjVar adjPrice adjTax : float)
           (totalCost totalRevenue profitBeforeTax netProfit : float)
  : option (list ChartData) :=
  let chartRange := chartRangeOf units breakEvenUnits in
  let step := stepOf chartRange in
  match for_push fuel 0 step chartRange
                 (chartPoint adjFixed adjVar adjPrice adjTax) [] with
  | None => None
  | Some chartPoints =>
      Some (Array_sort byCantidad
              (forcePoints units breakEvenUnits step
                 (chartPoint adjFixed adjVar adjPrice adjTax breakEvenUnits)
                 (mkChartData units totalCost totalRevenue adjFixed
                              profitBeforeTax netProfit)
                 chartPoints))
  end.

(** What the [else] branch writes. *)
Definition resetOutputs (st : State) : State :=
  mkState (formData st) (sensitivityChanges st) resetResults [] [].

(** The effect: it reads the form and the sliders and writes results,
    table and chart.  It threads the toasts shown so far and the fuel of
    its loops; [None] means a loop is still running when the fuel is
    spent. *)
Definition useEffect_recalculate (fuel : nat) (st : State) (toasts : list Index.Toast)
  : option (State * list Index.Toast) :=
  let units := units (formData st) in
  let adjustedSellingPrice := adjustedSellingPrice st in
  let adjustedVariableCost := adjustedVariableCost st in
  let adjustedFixedCost := adjustedFixedCost st in
  let adjustedTaxRate := adjustedTaxRate st in
  let contributionMargin := adjustedSellingPrice - adjustedVariableCost in
  if 0 <? contributionMargin then
    let breakEvenUnits := adjustedFixedCost / contributionMargin in
    let breakEvenRevenue := breakEvenUnits * adjustedSellingPrice in
    let totalRevenue := units * adjustedSellingPrice in
    let totalCost := adjustedFixedCost + units * adjustedVariableCost in
    let profitBeforeTax := totalRevenue - totalCost in
    let netProfit := profitBeforeTax * (1 - adjustedTaxRate / 100) in
    let results := mkCalculationResults breakEvenUnits breakEvenRevenue totalRevenue
                                        totalCost profitBeforeTax netProfit in
    match generateTable fuel units adjustedFixedCost adjustedVariableCost
                        adjustedSellingPrice adjustedTaxRate with
    | None => None
    | Some tableRows =>
        match generateChart fuel units breakEvenUnits adjustedFixedCost
                            adjustedVariableCost adjustedSellingPrice adjustedTaxRate
                            totalCost totalRevenue profitBeforeTax netProfit with
        | None => None
        | Some chartPoints =>
            Some (mkState (formData st) (sensitivityChanges st)
                          results tableRows chartPoints, toasts)
        end
    end
  else
    Some (resetOutputs st, toasts).

(** The form with other units, or another price slider. *)
Definition withUnits (u : float) (st : State) : State :=
  mkState (mkFormData u (fixedCost (formData st))
                      (variableCostPerUnit (formData st))
                      (sellingPricePerUnit (formData st)) (taxRate (formData st)))
          (sensitivityChanges st) (results st) (tableData st) (chartData st).

End Dashboard64.

(** ** Concrete binary64 records used in the examples *)

Module Examples64.
Local Open Scope float_scope.

(** The contribution margin is zero; the units are zero; price and
    variable cost are both zero. *)
Definition zero_margin : Index64.FinancialData :=
  Index64.mkFinancialData 1000 50000 35 35.
Definition zero_units : Index64.FinancialData :=
  Index64.mkFinancialData 0 50000 20 35.
Definition zero_price_and_cost : Index64.FinancialData :=
  Index64.mkFinancialData 1000 50000 0 0.
Definition initialData : Index64.FinancialData :=
  Index64.mkFinancialData 1000 50000 20 35.

(** Accepted records at the edges of binary64. *)
Definition tiny_units_and_price : Index64.FinancialData :=
  Index64.mkFinancialData 1e-200 0 0 1e-200.
Definition huge_fixed_cost_per_unit : Index64.FinancialData :=
  Index64.mkFinancialData 1e-10 1e300 0 1.

(** States of the dashboard: zero margin, zero units, a margin that is
    zero before rounding (25 raised by 12 percent against 28), 990 units,
    and units so large that 1.2 times them overflows. *)
Definition state_zero_margin : Dashboard64.State :=
  Dashboard64.mkState (Dashboard64.mkFormData 100 10000 25 25 30)
                      (Dashboard64.mkSensitivityChanges 0 0 0 0)
                      Dashboard64.resetResults [] [].
Definition state_zero_units : Dashboard64.State :=
  Dashboard64.withUnits 0 Dashboard64.initialState.
Definition state_rounded_margin : Dashboard64.State :=
  Dashboard64.mkState (Dashboard64.mkFormData 100 10000 28 25 30)
                      (Dashboard64.mkSensitivityChanges 12 0 0 0)
                      Dashboard64.resetResults [] [].
Definition state_990_units : Dashboard64.State :=
  Dashboard64.withUnits 990 Dashboard64.initialState.
Definition state_huge_units : Dashboard64.State :=
  Dashboard64.withUnits 1.5e308 Dashboard64.initialState.

End Examples64.

(** * Properties *)

(** Closed comparisons of rationals, by evaluation. *)
Ltac by_evaluation :=
  repeat split; vm_compute; solve [reflexivity | discriminate].

(** ** Comparisons *)

Section Comparisons.
Import JS.

Lemma Qlt_bool_iff (a b : Q) : Qlt_bool a b = true <-> a < b.
Proof.
  unfold Qlt_bool. rewrite negb_true_iff.
  split; intro H.
  - apply Qnot_le_lt. intro Hle. apply Qle_bool_iff in Hle. congruence.
  - destruct (Qle_bool b a) eqn:E; [|reflexivity].
    apply Qle_bool_iff in E. exfalso. apply (Qlt_not_le _ _ H E).
Qed.

Lemma Qlt_bool_false_iff (a b : Q) : Qlt_bool a b = false <-> b <= a.
Proof.
  unfold Qlt_bool. rewrite negb_false_iff. apply Qle_bool_iff.
Qed.

Lemma Qle_bool_false_iff (a b : Q) : Qle_bool a b = false <-> b < a.
Proof.
  rewrite <- Qlt_bool_iff. unfold Qlt_bool.
  destruct (Qle_bool a b); simpl; intuition congruence.
Qed.

Lemma Math_max_ge_l (a b : Q) : a <= Math_max a b.
Proof.
  unfold Math_max. destruct (Qle_bool a b) eqn:E.
  - now apply Qle_bool_iff.
  - apply Qle_refl.
Qed.


(** The bound of the table loop is 10 whatever the units are. *)
Lemma table_bound (units : Q) : Math_min 10 (Math_max 10 units) = 10.
Proof.
  unfold Math_max. destruct (Qle_bool 10 units) eqn:E.
  - unfold Math_min. now rewrite E.
  - reflexivity.
Qed.

End Comparisons.

(** ** The [for] loop *)

Section ForLoop.
Import JS.
Context {A : Type}.
Variables (step bound : Q) (body : Q -> A).
Hypothesis step_ge_1 : 1 <= step.

Lemma Qfloor_ge (z : Z) (x : Q) : inject_Z z <= x -> (z <= Qfloor x)%Z.
Proof.
  intro H. rewrite <- (Qfloor_Z z). now apply Qfloor_resp_le.
Qed.

(** With enough fuel the loop reaches its exit: it has pushed the body
    at [q, q + step, ...], every one of them within the bound, and the
    next one is beyond it. *)
Lemma for_push_spec (fuel : nat) :
  forall (q : Q) (acc : list A),
    (1 <= fuel)%nat ->
    (q <= bound -> (Qfloor (bound - q) + 2 <= Z.of_nat fuel)%Z) ->
    exists n : nat,
      for_push fuel q step bound body acc
      = Some (acc ++ map body (Spec.progression q step n))
      /\ Forall (fun x => x <= bound) (Spec.progression q step n)
      /\ bound < q + inject_Z (Z.of_nat n) * step.
Proof.
  induction fuel as [|fuel IH]; intros q acc Hfuel Hmeasure.
  - lia.
  - simpl. destruct (Qle_bool q bound) eqn:Etest.
    + apply Qle_bool_iff in Etest.
      specialize (Hmeasure Etest).
      assert (Hnonneg : (0 <= Qfloor (bound - q))%Z).
      { apply Qfloor_ge. change (inject_Z 0) with 0. lra. }
      destruct (IH (q + step) (acc ++ [body q])) as (n & Hrun & Hall & Hexit).
      * lia.
      * intro Hnext.
        assert ((Qfloor (bound - (q + step)) + 1 <= Qfloor (bound - q))%Z).
        { apply Qfloor_ge. rewrite inject_Z_plus.
          pose proof (Qfloor_le (bound - (q + step))).
          change (inject_Z 1) with 1. lra. }
        lia.
      * exists (S n). split; [|split].
        -- rewrite Hrun. simpl. now rewrite <- app_assoc.
        -- simpl. constructor; assumption.
        -- rewrite Nat2Z.inj_succ. unfold Z.succ. rewrite inject_Z_plus.
           change (inject_Z 1) with 1. lra.
    + apply Qle_bool_false_iff in Etest.
      exists 0%nat. split; [|split].
      * simpl. now rewrite app_nil_r.
      * constructor.
      * simpl. change (inject_Z 0) with 0. lra.
Qed.

(** [loop_fuel] is enough. *)
Lemma for_push_loop_fuel (q : Q) (acc : list A) :
  exists n : nat,
    for_push (loop_fuel q bound) q step bound body acc
    = Some (acc ++ map body (Spec.progression q step n))
    /\ Forall (fun x => x <= bound) (Spec.progression q step n)
    /\ bound < q + inject_Z (Z.of_nat n) * step.
Proof.
  apply for_push_spec.
  - unfold loop_fuel. lia.
  - intro Hle. unfold loop_fuel.
    assert ((0 <= Qfloor (bound - q))%Z).
    { apply Qfloor_ge. change (inject_Z 0) with 0. lra. }
    lia.
Qed.

End ForLoop.

(** The table loop: always the quantities 1 to 10. *)
Lemma for_push_1_to_10 {A : Type} (body : Q -> A) :
  JS.for_push (JS.loop_fuel 1 10) 1 1 10 body []
  = Some (map body [1; 2; 3; 4; 5; 6; 7; 8; 9; 10]).
Proof. reflexivity. Qed.


(** ** [Array.prototype.sort] with a comparator [key(a) - key(b)] *)

Section Sorting.
Import JS.
Context {A : Type}.
Variable key : A -> Q.

Let by_key : A -> A -> Q := fun a b => key a - key b.
Let key_le : A -> A -> Prop := Spec.ascending_by key.

Lemma sort_insert_perm (compareFn : A -> A -> Q) (x : A) (l : list A) :
  Permutation (sort_insert compareFn x l) (x :: l).
Proof.
  induction l as [|y l IH]; simpl.
  - apply Permutation_refl.
  - destruct (Qle_bool (compareFn x y) 0).
    + apply Permutation_refl.
    + eapply perm_trans; [apply perm_skip, IH | apply perm_swap].
Qed.

Lemma Array_sort_perm (compareFn : A -> A -> Q) (arr : list A) :
  Permutation (Array_sort compareFn arr) arr.
Proof.
  induction arr as [|x arr IH]; simpl.
  - apply perm_nil.
  - eapply perm_trans; [apply sort_insert_perm | now apply perm_skip].
Qed.

Lemma sort_insert_sorted (x : A) (l : list A) :
  StronglySorted key_le l -> StronglySorted key_le (sort_insert by_key x l).
Proof.
  induction l as [|y l IH]; intro Hs; simpl.
  - repeat constructor.
  - inversion Hs as [|? ? Hl Hy]; subst.
    destruct (Qle_bool (by_key x y) 0) eqn:E.
    + apply Qle_bool_iff in E. unfold by_key in E.
      constructor; [assumption|].
      constructor; [unfold key_le, Spec.ascending_by; lra|].
      apply Forall_forall. intros z Hz.
      rewrite Forall_forall in Hy. specialize (Hy z Hz).
      unfold key_le, Spec.ascending_by in *. lra.
    + apply Qle_bool_false_iff in E. unfold by_key in E.
      constructor; [now apply IH|].
      apply Forall_forall. intros z Hz.
      apply (Permutation_in _ (sort_insert_perm by_key x l)) in Hz.
      destruct Hz as [<-|Hz].
      * unfold key_le, Spec.ascending_by. lra.
      * rewrite Forall_forall in Hy. now apply Hy.
Qed.

Lemma Array_sort_sorted (arr : list A) :
  StronglySorted key_le (Array_sort by_key arr).
Proof.
  induction arr as [|x arr IH]; simpl.
  - constructor.
  - now apply sort_insert_sorted.
Qed.

Lemma sorted_keys (l : list A) :
  StronglySorted key_le l -> StronglySorted Qle (map key l).
Proof.
  induction 1 as [|x l Hs IH Hx]; simpl; constructor; [assumption|].
  apply Forall_forall. intros q Hq.
  apply in_map_iff in Hq. destruct Hq as (z & <- & Hz).
  rewrite Forall_forall in Hx. now apply Hx.
Qed.

End Sorting.

(** ** The grid of the chart *)

Section Grid.
Import JS.

Lemma Qfloor_unique (z : Z) (x : Q) :
  inject_Z z <= x -> x < inject_Z (z + 1) -> Qfloor x = z.
Proof.
  intros Hlo Hhi.
  pose proof (Qfloor_ge z x Hlo) as H1.
  assert (H2 : (Qfloor x < z + 1)%Z).
  { rewrite Zlt_Qlt. eapply Qle_lt_trans; [apply Qfloor_le | exact Hhi]. }
  lia.
Qed.

(** The last of [S m] quantities of a progression. *)
Lemma progression_last (step bound : Q) (m : nat) :
  forall a : Q,
    Forall (fun x => x <= bound) (Spec.progression a step (S m)) ->
    a + inject_Z (Z.of_nat m) * step <= bound.
Proof.
  induction m as [|m IH]; intros a Hall.
  - inversion Hall; subst. simpl. change (inject_Z 0) with 0. lra.
  - inversion Hall as [|? ? Ha Hrest]; subst.
    specialize (IH _ Hrest).
    rewrite Nat2Z.inj_succ. unfold Z.succ. rewrite inject_Z_plus.
    change (inject_Z 1) with 1. lra.
Qed.



(** What the loop pushed is the grid of the specification. *)
Lemma loop_is_grid (step chartRange : Q) (n : nat) :
  1 <= step ->
  Forall (fun x => x <= chartRange) (Spec.progression 0 step n) ->
  chartRange < 0 + inject_Z (Z.of_nat n) * step ->
  Spec.progression 0 step n = Spec.grid chartRange step.
Proof.
  intros Hstep Hall Hexit. unfold Spec.grid.
  destruct (Qle_bool 0 chartRange) eqn:E.
  - apply Qle_bool_iff in E.
    destruct n as [|m].
    + simpl in Hexit. change (inject_Z 0) with 0 in Hexit. lra.
    + apply progression_last in Hall.
      assert (Hfloor : Qfloor (chartRange / step) = Z.of_nat m).
      { apply Qfloor_unique.
        - apply Qle_shift_div_l; lra.
        - apply Qlt_shift_div_r; [lra|].
          replace (Z.of_nat m + 1)%Z with (Z.of_nat (S m)) by lia. lra. }
      rewrite Hfloor, Nat2Z.id. reflexivity.
  - apply Qle_bool_false_iff in E.
    destruct n as [|m]; [reflexivity|].
    inversion Hall; subst. lra.
Qed.



Lemma stepOf_ge_1 (chartRange : Q) : 1 <= AnalysisDashboard.stepOf chartRange.
Proof. apply Math_max_ge_l. Qed.

End Grid.

(** ** The dashboard's table and chart *)

Section Dashboard.
Import JS AnalysisDashboard.

Lemma generateTable_rows (units adjFixed adjVar adjPrice adjTax : Q) :
  generateTable units adjFixed adjVar adjPrice adjTax
  = Some (map (tableRow adjFixed adjVar adjPrice adjTax)
              ([1; 2; 3; 4; 5; 6; 7; 8; 9; 10]
                 ++ (if Qlt_bool 10 units then [units] else []))).
Proof.
  unfold generateTable. rewrite table_bound, for_push_1_to_10.
  destruct (Qlt_bool 10 units); [|now rewrite app_nil_r].
  now rewrite map_app.
Qed.


Lemma cantidad_chartPoint (adjFixed adjVar adjPrice adjTax : Q) (qs : list Q) :
  map chart_cantidad (map (chartPoint adjFixed adjVar adjPrice adjTax) qs) = qs.
Proof.
  induction qs as [|q qs IH]; simpl; [reflexivity|]. now rewrite IH.
Qed.

Lemma some_nearPoint (x step : Q) (pts : list ChartData) :
  Array_some (nearPoint x step) pts
  = existsb (Spec.within_half_step x step) (map chart_cantidad pts).
Proof.
  unfold Array_some.
  induction pts as [|p pts IH]; simpl; [reflexivity|]. now rewrite IH.
Qed.

(** Appending a forced point, on the quantities. *)
Lemma forced_point (x step : Q) (pts : list ChartData) (p : ChartData) :
  chart_cantidad p = x ->
  map chart_cantidad
      (if negb (Array_some (nearPoint x step) pts) then pts ++ [p] else pts)
  = Spec.force x step (map chart_cantidad pts).
Proof.
  intro Hp. unfold Spec.force. rewrite some_nearPoint.
  destruct (existsb _ _); simpl; [reflexivity|].
  now rewrite map_app, <- Hp.
Qed.

(** The chart: it is produced, its quantities are those of the
    specification, and they ascend. *)
Lemma generateChart_spec
      (units breakEvenUnits adjFixed adjVar adjPrice adjTax : Q)
      (totalCost totalRevenue profitBeforeTax netProfit : Q) :
  exists chartPoints : list ChartData,
    generateChart units breakEvenUnits adjFixed adjVar adjPrice adjTax
                  totalCost totalRevenue profitBeforeTax netProfit
    = Some chartPoints
    /\ Permutation (map chart_cantidad chartPoints)
                   (Spec.chart_quantities units breakEvenUnits)
    /\ StronglySorted Qle (map chart_cantidad chartPoints).
Proof.
  unfold generateChart.
  set (chartRange := chartRangeOf units breakEvenUnits).
  set (step := stepOf chartRange).
  destruct (for_push_loop_fuel step chartRange
              (chartPoint adjFixed adjVar adjPrice adjTax)
              (stepOf_ge_1 chartRange) 0 [])
    as (n & Hrun & Hall & Hexit).
  rewrite Hrun. simpl app.
  eexists. split; [reflexivity|]. split.
  - eapply perm_trans; [apply Permutation_map, Array_sort_perm|].
    rewrite forced_point by reflexivity.
    rewrite forced_point by reflexivity.
    rewrite cantidad_chartPoint.
    rewrite (loop_is_grid step chartRange n (stepOf_ge_1 chartRange) Hall Hexit).
    apply Permutation_refl.
  - apply sorted_keys. apply Array_sort_sorted.
Qed.

(** The effect always completes. *)
Lemma useEffect_recalculate_total (f : FormData) (s : SensitivityChanges) :
  exists out : Outputs, useEffect_recalculate f s = Some out.
Proof.
  unfold useEffect_recalculate.
  destruct (Qlt_bool 0 _); [|eexists; reflexivity].
  rewrite generateTable_rows.
  match goal with
  | |- context [generateChart ?u ?b ?a1 ?a2 ?a3 ?a4 ?c1 ?c2 ?c3 ?c4] =>
      destruct (generateChart_spec u b a1 a2 a3 a4 c1 c2 c3 c4) as (pts & Hc & _)
  end.
  rewrite Hc. eexists; reflexivity.
Qed.



End Dashboard.


(** ** The basic calculator *)

Section Basic.
Import JS Index.

(** The first test: the price does not exceed the variable cost. *)
Lemma calculateResults_unattainable (d : FinancialData) :
  sellingPricePerUnit d <= variableCostPerUnit d ->
  calculateResults d = ([warningToast], None).
Proof.
  intro H. unfold calculateResults.
  apply Qle_bool_iff in H. now rewrite H.
Qed.

(** The second test: a precondition fails while the margin is positive. *)
Lemma calculateResults_invalid (d : FinancialData) :
  variableCostPerUnit d < sellingPricePerUnit d ->
  Spec.violates_basic d ->
  calculateResults d = ([], None).
Proof.
  intros Hm Hv. unfold calculateResults.
  apply Qle_bool_false_iff in Hm. rewrite Hm.
  assert (E : Qle_bool (units d) 0 || Qlt_bool (fixedCost d) 0
              || Qlt_bool (variableCostPerUnit d) 0
              || Qle_bool (sellingPricePerUnit d) 0 = true).
  { destruct Hv as [H | [H | [H | H]]].
    - apply Qle_bool_iff in H. rewrite H. reflexivity.
    - apply Qlt_bool_iff in H. rewrite H. now rewrite orb_true_r.
    - apply Qlt_bool_iff in H. rewrite H. now rewrite !orb_true_r.
    - apply Qle_bool_iff in H. rewrite H. now rewrite !orb_true_r. }
  now rewrite E.
Qed.

(** Both tests pass: the record of results. *)
Lemma calculateResults_accepts (d : FinancialData) :
  Spec.accepted_basic d ->
  calculateResults d
  = ([], Some (mkCalculationResults
                 (fixedCost d / units d)
                 (variableCostPerUnit d * units d)
                 (fixedCost d + variableCostPerUnit d * units d)
                 ((fixedCost d + variableCostPerUnit d * units d) / units d)
                 (sellingPricePerUnit d * units d)
                 (sellingPricePerUnit d * units d
                  - (fixedCost d + variableCostPerUnit d * units d))
                 (fixedCost d / (sellingPricePerUnit d - variableCostPerUnit d))
                 (fixedCost d / (sellingPricePerUnit d - variableCostPerUnit d)
                  * sellingPricePerUnit d))).
Proof.
  intros [(Hu & Hf & Hv & Hp) Hm]. unfold calculateResults.
  assert (E1 : Qle_bool (sellingPricePerUnit d) (variableCostPerUnit d) = false)
    by (apply Qle_bool_false_iff; lra).
  assert (E2 : Qle_bool (units d) 0 = false) by (apply Qle_bool_false_iff; lra).
  assert (E3 : Qlt_bool (fixedCost d) 0 = false) by (apply Qlt_bool_false_iff; lra).
  assert (E4 : Qlt_bool (variableCostPerUnit d) 0 = false)
    by (apply Qlt_bool_false_iff; lra).
  assert (E5 : Qle_bool (sellingPricePerUnit d) 0 = false)
    by (apply Qle_bool_false_iff; lra).
  rewrite E1, E2, E3, E4, E5. reflexivity.
Qed.

(** A record of results is only returned for an accepted record. *)
Lemma returned_accepted (d : FinancialData) (r : CalculationResults) :
  returned d = Some r -> Spec.accepted_basic d.
Proof.
  unfold returned, calculateResults. intro H.
  destruct (Qle_bool (sellingPricePerUnit d) (variableCostPerUnit d)) eqn:E1;
    [discriminate|].
  destruct (Qle_bool (units d) 0) eqn:E2; [discriminate|].
  destruct (Qlt_bool (fixedCost d) 0) eqn:E3; [discriminate|].
  destruct (Qlt_bool (variableCostPerUnit d) 0) eqn:E4; [discriminate|].
  destruct (Qle_bool (sellingPricePerUnit d) 0) eqn:E5; [discriminate|].
  apply Qle_bool_false_iff in E1, E2, E5.
  apply Qlt_bool_false_iff in E3, E4.
  repeat split; try assumption. lra.
Qed.

End Basic.

(** ** Reading numbers from text *)

Section Parsing.
Import JS.









Lemma or_else_NaN (y : number) : or_else NaN y = y.
Proof. reflexivity. Qed.


End Parsing.

(** ** The example scenarios of the specification *)

Section Scenarios.
Import JS.

(** units 1000, fixed cost 50000, variable cost 20, price 35. *)
Example scenario_1 :
  exists r : Index.CalculationResults,
    Index.calculateResults Index.initialData = ([], Some r)
    /\ Index.totalVariableCost r == 20000
    /\ Index.totalCost r == 70000
    /\ Index.salesRevenue r == 35000
    /\ Index.profitOrLoss r == - 35000
    /\ Index.breakEvenUnits r == 50000 / 15
    /\ Index.breakEvenRevenue r == 1750000 / 15
    /\ Index.fixedCostPerUnit r == 50
    /\ Index.totalCostPerUnit r == 70
    /\ ResultsTable.profitMargin r == - 100.
Proof.
  eexists. split; [reflexivity|]. by_evaluation.
Qed.

(** units 100, fixed cost 10000, variable cost 15, price 25, tax 30,
    sliders at rest. *)
Example scenario_2 :
  exists out : AnalysisDashboard.Outputs,
    AnalysisDashboard.useEffect_recalculate
      AnalysisDashboard.initialFormData AnalysisDashboard.initialSensitivity
    = Some out
    /\ AnalysisDashboard.totalRevenue (AnalysisDashboard.results out) == 2500
    /\ AnalysisDashboard.totalCost (AnalysisDashboard.results out) == 11500
    /\ AnalysisDashboard.profitBeforeTax (AnalysisDashboard.results out) == - 9000
    /\ AnalysisDashboard.netProfit (AnalysisDashboard.results out) == - 6300
    /\ AnalysisDashboard.breakEvenUnits (AnalysisDashboard.results out) == 1000
    /\ AnalysisDashboard.breakEvenRevenue (AnalysisDashboard.results out) == 25000
    /\ map AnalysisDashboard.cantidad (AnalysisDashboard.tableData out)
       = [1; 2; 3; 4; 5; 6; 7; 8; 9; 10; 100]
    /\ List.length (AnalysisDashboard.chartData out) = 21%nat.
Proof.
  eexists. split; [vm_compute; reflexivity|]. by_evaluation.
Qed.

(** The same with the price slider at +20 percent: the price is 30. *)
Example scenario_3 :
  AnalysisDashboard.adjustedSellingPrice
    AnalysisDashboard.initialFormData Examples.price_up_20 == 30
  /\ exists out : AnalysisDashboard.Outputs,
      AnalysisDashboard.useEffect_recalculate
        AnalysisDashboard.initialFormData Examples.price_up_20
      = Some out
      /\ AnalysisDashboard.breakEvenUnits (AnalysisDashboard.results out)
         == 10000 / 15.
Proof.
  split; [by_evaluation|].
  eexists. split; [vm_compute; reflexivity|]. by_evaluation.
Qed.

(** Two quantities the grid misses by half a step or more are appended
    and sorted into place: with 990 units the step is 60, and 990 is 30
    away from both 960 and 1020. *)
Example forced_units_point :
  exists out : AnalysisDashboard.Outputs,
    AnalysisDashboard.useEffect_recalculate
      (AnalysisDashboard.mkFormData 990 10000 15 25 30)
      AnalysisDashboard.initialSensitivity
    = Some out
    /\ map Qred (map AnalysisDashboard.chart_cantidad (AnalysisDashboard.chartData out))
       = [0; 60; 120; 180; 240; 300; 360; 420; 480; 540; 600; 660; 720; 780;
          840; 900; 960; 990; 1020; 1080; 1140; 1200].
Proof.
  eexists. split; [vm_compute; reflexivity|]. vm_compute. reflexivity.
Qed.

(** Text as the handlers read it. *)
Example parseFloat_examples :
  parseFloat "12" = Finite 12
  /\ parseFloat "  -3.5" = Finite (- (35 # 10))
  /\ parseFloat "12abc" = Finite 12
  /\ parseFloat "1e" = Finite 1
  /\ parseFloat "-Infinity" = Infinity true
  /\ parseFloat "" = NaN
  /\ parseFloat "." = NaN
  /\ parseFloat "abc" = NaN
  /\ InputField.handleChange "" = Finite 0
  /\ AnalysisDashboard.numericValue "1234567890123456" = Finite 123456789012.
Proof.
  repeat split; vm_compute; reflexivity.
Qed.

End Scenarios.

(** * The claims *)

Section Claims.
Import JS.













End Claims.

(** * The claims that depend on binary64

    What follows is stated of the second embedding: rounding, overflow,
    [NaN] and a loop that leaves its range are as in the code. *)

Ltac by_computation :=
  repeat apply conj; vm_compute; solve [reflexivity | discriminate].

Section Binary64Facts.
Import Binary64.
Local Open Scope float_scope.

(** The comparisons on a number that is not [NaN]: not [<= 0] is [> 0]. *)
Lemma not_le_zero_is_positive (x : float) :
  (x <=? 0) = false -> is_nan x = false -> (0 <? x) = true /\ (x =? 0) = false.
Proof.
  unfold is_nan.
  rewrite FloatAxioms.leb_spec, FloatAxioms.ltb_spec, !FloatAxioms.eqb_spec.
  change (Prim2SF 0) with (S754_zero false).
  destruct (Prim2SF x) as [[]|[]| |[] m e]; cbn; intros H1 H2;
    try discriminate; split; reflexivity.
Qed.

(** A loop that ends gives the same array whatever the fuel. *)
Lemma for_push_fuel_irrelevant {A : Type} (body : float -> A) (step bound : float)
      (fuel1 : nat) :
  forall (fuel2 : nat) (q : float) (acc l1 l2 : list A),
    for_push fuel1 q step bound body acc = Some l1 ->
    for_push fuel2 q step bound body acc = Some l2 ->
    l1 = l2.
Proof.
  induction fuel1 as [|n IH]; intros fuel2 q acc l1 l2 H1 H2; [discriminate|].
  destruct fuel2 as [|m]; [discriminate|].
  cbn [for_push] in H1, H2.
  destruct (q <=? bound).
  - exact (IH _ _ _ _ _ H1 H2).
  - congruence.
Qed.

(** Once the counter and the bound are both [Infinity] the test never
    fails. *)
Lemma for_push_at_infinity {A : Type} (body : float -> A) (fuel : nat) :
  forall acc : list A, for_push fuel infinity infinity infinity body acc = None.
Proof.
  induction fuel as [|n IH]; intro acc; [reflexivity|].
  cbn [for_push].
  change (infinity <=? infinity) with true.
  change (infinity + infinity) with infinity.
  apply IH.
Qed.

Lemma for_push_to_infinity {A : Type} (body : float -> A) (fuel : nat)
      (acc : list A) :
  for_push fuel 0 infinity infinity body acc = None.
Proof.
  destruct fuel as [|n]; [reflexivity|].
  cbn [for_push].
  change (0 <=? infinity) with true.
  change (0 + infinity) with infinity.
  apply for_push_at_infinity.
Qed.

Lemma sort_insert_length {A : Type} (compareFn : A -> A -> float) (x : A)
      (l : list A) :
  List.length (sort_insert compareFn x l) = S (List.length l).
Proof.
  induction l as [|y l IH]; [reflexivity|].
  cbn [sort_insert]. destruct (0 <? compareFn x y); cbn [List.length]; congruence.
Qed.

Lemma Array_sort_length {A : Type} (compareFn : A -> A -> float) (arr : list A) :
  List.length (Array_sort compareFn arr) = List.length arr.
Proof.
  unfold Array_sort. induction arr as [|x arr IH]; [reflexivity|].
  cbn [fold_right]. rewrite sort_insert_length. cbn [List.length]. congruence.
Qed.

End Binary64Facts.

Section Dashboard64Facts.
Import Binary64 Dashboard64.
Local Open Scope float_scope.

Lemma generateTable_fuel_irrelevant (fuel1 fuel2 : nat)
      (units adjFixed adjVar adjPrice adjTax : float) (t1 t2 : list TableData) :
  generateTable fuel1 units adjFixed adjVar adjPrice adjTax = Some t1 ->
  generateTable fuel2 units adjFixed adjVar adjPrice adjTax = Some t2 ->
  t1 = t2.
Proof.
  unfold generateTable. cbv zeta.
  destruct (for_push fuel1 _ _ _ _ _) as [l1|] eqn:E1; [|discriminate].
  destruct (for_push fuel2 _ _ _ _ _) as [l2|] eqn:E2; [|discriminate].
  rewrite (for_push_fuel_irrelevant _ _ _ _ _ _ _ _ _ E1 E2). congruence.
Qed.

Lemma generateChart_fuel_irrelevant (fuel1 fuel2 : nat)
      (units breakEvenUnits adjFixed adjVar adjPrice adjTax : float)
      (totalCost totalRevenue profitBeforeTax netProfit : float)
      (c1 c2 : list ChartData) :
  generateChart fuel1 units breakEvenUnits adjFixed adjVar adjPrice adjTax
                totalCost totalRevenue profitBeforeTax netProfit = Some c1 ->
  generateChart fuel2 units breakEvenUnits adjFixed adjVar adjPrice adjTax
                totalCost totalRevenue profitBeforeTax netProfit = Some c2 ->
  c1 = c2.
Proof.
  unfold generateChart. cbv zeta.
  destruct (for_push fuel1 _ _ _ _ _) as [l1|] eqn:E1; [|discriminate].
  destruct (for_push fuel2 _ _ _ _ _) as [l2|] eqn:E2; [|discriminate].
  rewrite (for_push_fuel_irrelevant _ _ _ _ _ _ _ _ _ E1 E2). congruence.
Qed.

(** The forcing step leaves at least one point: if none is near the
    units, the units point is appended. *)
Lemma forcePoints_not_empty (units breakEvenUnits step : float)
      (breakEvenPoint unitsPoint : ChartData) (chartPoints : list ChartData) :
  forcePoints units breakEvenUnits step breakEvenPoint unitsPoint chartPoints <> [].
Proof.
  unfold forcePoints. cbv zeta.
  set (pts := if negb (existsb (nearPoint breakEvenUnits step) chartPoints)
              then chartPoints ++ [breakEvenPoint] else chartPoints).
  destruct pts as [|p pts'] eqn:E.
  - cbn. discriminate.
  - destruct (negb (existsb (nearPoint units step) (p :: pts'))); discriminate.
Qed.

(** A chart that is generated has a point. *)
Lemma generateChart_not_empty (fuel : nat)
      (units breakEvenUnits adjFixed adjVar adjPrice adjTax : float)
      (totalCost totalRevenue profitBeforeTax netProfit : float)
      (c : list ChartData) :
  generateChart fuel units breakEvenUnits adjFixed adjVar adjPrice adjTax
                totalCost totalRevenue profitBeforeTax netProfit = Some c ->
  c <> [].
Proof.
  unfold generateChart. cbv zeta.
  destruct (for_push fuel _ _ _ _ _) as [l|]; [|discriminate].
  intros [= <-] H.
  apply (f_equal (@List.length ChartData)) in H.
  rewrite Array_sort_length in H.
  destruct (forcePoints _ _ _ _ _ l) as [|p ps] eqn:E; [|discriminate].
  exact (forcePoints_not_empty _ _ _ _ _ _ E).
Qed.

(** The [else] branch. *)
Lemma useEffect_recalculate_resets (fuel : nat) (st : State)
      (toasts : list Index.Toast) :
  (0 <? contributionMargin st) = false ->
  useEffect_recalculate fuel st toasts = Some (resetOutputs st, toasts).
Proof.
  intro Hm. unfold useEffect_recalculate. cbv zeta.
  unfold contributionMargin in Hm. rewrite Hm. reflexivity.
Qed.

(** The [if] branch, when its loops end. *)
Lemma useEffect_recalculate_computes (fuel : nat) (st out : State)
      (toasts log : list Index.Toast) :
  (0 <? contributionMargin st) = true ->
  useEffect_recalculate fuel st toasts = Some (out, log) ->
  let units := units (formData st) in
  let breakEvenUnits := adjustedFixedCost st / contributionMargin st in
  let totalRevenue := units * adjustedSellingPrice st in
  let totalCost := adjustedFixedCost st + units * adjustedVariableCost st in
  let profitBeforeTax := totalRevenue - totalCost in
  let netProfit := profitBeforeTax * (1 - adjustedTaxRate st / 100) in
  log = toasts
  /\ formData out = formData st
  /\ sensitivityChanges out = sensitivityChanges st
  /\ results out
     = mkCalculationResults breakEvenUnits (breakEvenUnits * adjustedSellingPrice st)
                            totalRevenue totalCost profitBeforeTax netProfit
  /\ generateTable fuel units (adjustedFixedCost st) (adjustedVariableCost st)
                   (adjustedSellingPrice st) (adjustedTaxRate st)
     = Some (tableData out)
  /\ generateChart fuel units breakEvenUnits (adjustedFixedCost st)
                   (adjustedVariableCost st) (adjustedSellingPrice st)
                   (adjustedTaxRate st) totalCost totalRevenue profitBeforeTax
                   netProfit
     = Some (chartData out).
Proof.
  intros Hm. unfold useEffect_recalculate. cbv zeta.
  unfold contributionMargin in *. rewrite Hm.
  destruct (generateTable _ _ _ _ _ _) as [t|]; [|discriminate].
  destruct (generateChart _ _ _ _ _ _ _ _ _ _ _) as [c|]; [|discriminate].
  intros [= <- <-]. cbn [formData sensitivityChanges results tableData chartData].
  repeat split; reflexivity.
Qed.

(** With a positive margin the outputs are never the reset ones. *)
Lemma useEffect_recalculate_computed_is_not_reset (fuel : nat) (st : State)
      (toasts : list Index.Toast) :
  (0 <? contributionMargin st) = true ->
  useEffect_recalculate fuel st toasts <> Some (resetOutputs st, toasts).
Proof.
  intros Hm H.
  destruct (useEffect_recalculate_computes _ _ _ _ _ Hm H) as (_ & _ & _ & _ & _ & Hc).
  exact (generateChart_not_empty _ _ _ _ _ _ _ _ _ _ _ _ Hc eq_refl).
Qed.

(** The effect writes nothing but its three outputs. *)
Lemma useEffect_recalculate_frame (fuel : nat) (st out : State)
      (toasts log : list Index.Toast) :
  useEffect_recalculate fuel st toasts = Some (out, log) ->
  formData out = formData st
  /\ sensitivityChanges out = sensitivityChanges st
  /\ log = toasts.
Proof.
  destruct (0 <? contributionMargin st) eqn:Hm; intro H.
  - destruct (useEffect_recalculate_computes _ _ _ _ _ Hm H) as (? & ? & ? & _).
    auto.
  - rewrite (useEffect_recalculate_resets _ _ _ Hm) in H.
    injection H as <- <-. auto.
Qed.

(** The three outputs are read off the form and the sliders alone:
    not off the earlier outputs, the toasts or the fuel. *)
Lemma useEffect_recalculate_reads_parameters
      (fuel1 fuel2 : nat) (st1 st2 out1 out2 : State)
      (toasts1 toasts2 log1 log2 : list Index.Toast) :
  formData st1 = formData st2 ->
  sensitivityChanges st1 = sensitivityChanges st2 ->
  useEffect_recalculate fuel1 st1 toasts1 = Some (out1, log1) ->
  useEffect_recalculate fuel2 st2 toasts2 = Some (out2, log2) ->
  results out1 = results out2
  /\ tableData out1 = tableData out2
  /\ chartData out1 = chartData out2.
Proof.
  intros Hf Hs H1 H2.
  assert (Hm : contributionMargin st1 = contributionMargin st2).
  { unfold contributionMargin, adjustedSellingPrice, adjustedVariableCost.
    now rewrite Hf, Hs. }
  destruct (0 <? contributionMargin st1) eqn:Hm1.
  - assert (Hm2 : (0 <? contributionMargin st2) = true) by now rewrite <- Hm.
    destruct (useEffect_recalculate_computes _ _ _ _ _ Hm1 H1)
      as (_ & _ & _ & Hr1 & Ht1 & Hc1).
    destruct (useEffect_recalculate_computes _ _ _ _ _ Hm2 H2)
      as (_ & _ & _ & Hr2 & Ht2 & Hc2).
    cbv zeta in *.
    unfold contributionMargin, adjustedSellingPrice, adjustedVariableCost,
      adjustedFixedCost, adjustedTaxRate in *.
    rewrite Hf, Hs in *.
    repeat split.
    + congruence.
    + exact (generateTable_fuel_irrelevant _ _ _ _ _ _ _ _ _ Ht1 Ht2).
    + exact (generateChart_fuel_irrelevant _ _ _ _ _ _ _ _ _ _ _ _ _ _ Hc1 Hc2).
  - assert (Hm2 : (0 <? contributionMargin st2) = false) by now rewrite <- Hm.
    rewrite (useEffect_recalculate_resets _ _ _ Hm1) in H1.
    rewrite (useEffect_recalculate_resets _ _ _ Hm2) in H2.
    injection H1 as <- _. injection H2 as <- _.
    repeat split; reflexivity.
Qed.

(** Run on its own output the effect writes the same output again. *)
Lemma useEffect_recalculate_idempotent (fuel : nat) (st out : State)
      (toasts log : list Index.Toast) :
  useEffect_recalculate fuel st toasts = Some (out, log) ->
  useEffect_recalculate fuel out log = Some (out, log).
Proof.
  intro H.
  destruct (useEffect_recalculate_frame _ _ _ _ _ H) as (Hf & Hs & _).
  assert (Hm : contributionMargin out = contributionMargin st).
  { unfold contributionMargin, adjustedSellingPrice, adjustedVariableCost.
    now rewrite Hf, Hs. }
  destruct (0 <? contributionMargin st) eqn:Hm1.
  - destruct (useEffect_recalculate_computes _ _ _ _ _ Hm1 H)
      as (_ & _ & _ & Hr & Ht & Hc).
    cbv zeta in *.
    unfold useEffect_recalculate. cbv zeta.
    unfold contributionMargin, adjustedSellingPrice, adjustedVariableCost,
      adjustedFixedCost, adjustedTaxRate in *.
    rewrite Hf, Hs. rewrite Hm1, Ht, Hc, <- Hr, <- Hf, <- Hs.
    destruct out; reflexivity.
  - rewrite (useEffect_recalculate_resets _ _ _ Hm1) in H.
    injection H as <- <-.
    rewrite useEffect_recalculate_resets by (now rewrite Hm).
    reflexivity.
Qed.

(** When the range of the chart is [Infinity] the grid loop never ends. *)
Lemma useEffect_recalculate_never_ends (st : State) :
  (0 <? contributionMargin st) = true ->
  chartRangeOf (units (formData st)) (adjustedFixedCost st / contributionMargin st)
  = infinity ->
  forall (fuel : nat) (toasts : list Index.Toast),
    useEffect_recalculate fuel st toasts = None.
Proof.
  intros Hm Hr fuel toasts.
  unfold useEffect_recalculate. cbv zeta.
  unfold contributionMargin in *. rewrite Hm.
  destruct (generateTable _ _ _ _ _ _) as [t|]; [|reflexivity].
  unfold generateChart. cbv zeta. rewrite Hr.
  change (stepOf infinity) with infinity.
  now rewrite for_push_to_infinity.
Qed.

End Dashboard64Facts.

Section Index64Facts.
Import Binary64 Index64.
Local Open Scope float_scope.

(** What [calculateResults] returns and adds to the toasts, by its two
    tests. *)
Lemma calculateResults_toast64 (d : FinancialData) (toasts : list Index.Toast) :
  (sellingPricePerUnit d <=? variableCostPerUnit d) = true ->
  calculateResults d toasts = (toasts ++ [Index.warningToast], None).
Proof.
  intro H. unfold calculateResults. cbv zeta. now rewrite H.
Qed.

Lemma calculateResults_invalid64 (d : FinancialData) (toasts : list Index.Toast) :
  (sellingPricePerUnit d <=? variableCostPerUnit d) = false ->
  invalidInput d = true ->
  calculateResults d toasts = (toasts, None).
Proof.
  intros H1 H2. unfold calculateResults. cbv zeta.
  unfold invalidInput in H2. now rewrite H1, H2.
Qed.

Lemma calculateResults_returns64 (d : FinancialData) (toasts : list Index.Toast)
      (r : CalculationResults) :
  snd (calculateResults d toasts) = Some r ->
  (sellingPricePerUnit d <=? variableCostPerUnit d) = false
  /\ invalidInput d = false
  /\ r = mkCalculationResults
           (fixedCost d / units d)
           (variableCostPerUnit d * units d)
           (fixedCost d + variableCostPerUnit d * units d)
           ((fixedCost d + variableCostPerUnit d * units d) / units d)
           (sellingPricePerUnit d * units d)
           (sellingPricePerUnit d * units d
            - (fixedCost d + variableCostPerUnit d * units d))
           (fixedCost d / (sellingPricePerUnit d - variableCostPerUnit d))
           (fixedCost d / (sellingPricePerUnit d - variableCostPerUnit d)
            * sellingPricePerUnit d).
Proof.
  unfold calculateResults, invalidInput. cbv zeta.
  destruct (sellingPricePerUnit d <=? variableCostPerUnit d); [discriminate|].
  destruct (_ || _); [discriminate|].
  cbn [snd]. intros [= <-]. repeat split.
Qed.

Lemma calculateResults_accepts64 (d : FinancialData) (toasts : list Index.Toast) :
  (sellingPricePerUnit d <=? variableCostPerUnit d) = false ->
  invalidInput d = false ->
  exists r : CalculationResults, calculateResults d toasts = (toasts, Some r).
Proof.
  intros H1 H2. unfold calculateResults. cbv zeta.
  unfold invalidInput in H2. rewrite H1, H2. eexists. reflexivity.
Qed.

End Index64Facts.

Section ClaimsBinary64.
Import Binary64.
Local Open Scope float_scope.

(** C1 (as the code has it): whenever the test
    [sellingPricePerUnit <= variableCostPerUnit] holds, the basic
    calculator shows the warning toast and returns [null], whatever the
    other parameters are; when that test fails and a precondition is
    violated it returns the same [null] and shows no toast.  The two
    failures are equal in the returned value and differ in the toasts
    only.  The dashboard, when its test [contributionMargin > 0] on the
    margin it computes fails, writes the reset outputs and shows no
    toast; it has no other failure outcome: whenever that test holds, a
    recalculation that completes has written the computed results and a
    chart that is not empty, whether a precondition is violated or not. *)
Theorem failure_outcomes
        (d1 d2 : Index64.FinancialData) (st st' : Dashboard64.State)
        (toasts : list Index.Toast) (fuel : nat) :
  (Index64.sellingPricePerUnit d1 <=? Index64.variableCostPerUnit d1) = true ->
  (Index64.sellingPricePerUnit d2 <=? Index64.variableCostPerUnit d2) = false ->
  Index64.invalidInput d2 = true ->
  (0 <? Dashboard64.contributionMargin st) = false ->
  (0 <? Dashboard64.contributionMargin st') = true ->
  Index64.calculateResults d1 toasts = (toasts ++ [Index.warningToast], None)
  /\ Index64.calculateResults d2 toasts = (toasts, None)
  /\ snd (Index64.calculateResults d1 toasts)
     = snd (Index64.calculateResults d2 toasts)
  /\ fst (Index64.calculateResults d1 toasts)
     <> fst (Index64.calculateResults d2 toasts)
  /\ Dashboard64.useEffect_recalculate fuel st toasts
     = Some (Dashboard64.resetOutputs st, toasts)
  /\ (forall (out : Dashboard64.State) (log : list Index.Toast),
         Dashboard64.useEffect_recalculate fuel st' toasts = Some (out, log) ->
         log = toasts
         /\ Dashboard64.chartData out <> []
         /\ Dashboard64.breakEvenUnits (Dashboard64.results out)
            = Dashboard64.adjustedFixedCost st' / Dashboard64.contributionMargin st').
Proof.
  intros H1 H2 H3 Hm Hm'.
  rewrite (calculateResults_toast64 d1 toasts H1).
  rewrite (calculateResults_invalid64 d2 toasts H2 H3).
  cbn [fst snd]. repeat split.
  - intro H. apply (f_equal (@List.length Index.Toast)) in H.
    rewrite length_app in H. cbn [List.length] in H. lia.
  - now apply useEffect_recalculate_resets.
  - now destruct (useEffect_recalculate_computes _ _ _ _ _ Hm' H).
  - destruct (useEffect_recalculate_computes _ _ _ _ _ Hm' H)
      as (_ & _ & _ & _ & _ & Hc).
    exact (generateChart_not_empty _ _ _ _ _ _ _ _ _ _ _ _ Hc).
  - destruct (useEffect_recalculate_computes _ _ _ _ _ Hm' H)
      as (_ & _ & _ & Hr & _).
    now rewrite Hr.
Qed.

Lemma failure_outcomes_witness :
  Index64.calculateResults Examples64.zero_price_and_cost []
  = ([Index.warningToast], None)
  /\ Index64.calculateResults Examples64.zero_units [] = ([], None)
  /\ Dashboard64.useEffect_recalculate 100 Examples64.state_zero_margin []
     = Some (Dashboard64.resetOutputs Examples64.state_zero_margin, [])
  /\ (forall (out : Dashboard64.State) (log : list Index.Toast),
         Dashboard64.useEffect_recalculate 100 Examples64.state_zero_units []
         = Some (out, log) ->
         Dashboard64.chartData out <> []).
Proof.
  destruct (failure_outcomes Examples64.zero_price_and_cost Examples64.zero_units
              Examples64.state_zero_margin Examples64.state_zero_units [] 100)
    as (Ha & Hb & _ & _ & Hc & Hd);
    try (vm_compute; reflexivity).
  repeat split; try assumption.
  intros out log H. now destruct (Hd out log H) as (_ & ? & _).
Defined.

(** C1, the claim as worded: the margin failure (units 1000, fixed cost
    50000, variable cost 35, price 35) and the precondition failure
    (units 0, fixed cost 50000, variable cost 20, price 35) return the
    same value, [null]. *)
Lemma unattainable_and_invalid_return_the_same :
  snd (Index64.calculateResults Examples64.zero_margin []) = None
  /\ snd (Index64.calculateResults Examples64.zero_units []) = None
  /\ snd (Index64.calculateResults Examples64.zero_margin [])
     = snd (Index64.calculateResults Examples64.zero_units []).
Proof. by_computation. Qed.

(** C2 (as the code has it): for every record on which one of the tests
    [units <= 0], [fixedCost < 0], [variableCostPerUnit < 0],
    [sellingPricePerUnit <= 0] holds, the basic calculator returns
    [null].  The dashboard does not make these tests: it writes the reset
    outputs (zero results, no rows, no points) exactly when its test
    [contributionMargin > 0], on the margin it computes in binary64 from
    the adjusted price and variable cost, fails. *)
Theorem rejection_policy
        (d : Index64.FinancialData) (st : Dashboard64.State)
        (toasts : list Index.Toast) (fuel : nat) :
  Index64.invalidInput d = true ->
  snd (Index64.calculateResults d toasts) = None
  /\ (Dashboard64.useEffect_recalculate fuel st toasts
      = Some (Dashboard64.resetOutputs st, toasts)
      <-> (0 <? Dashboard64.contributionMargin st) = false).
Proof.
  intro Hinv. split.
  - destruct (Index64.sellingPricePerUnit d <=? Index64.variableCostPerUnit d) eqn:E.
    + now rewrite (calculateResults_toast64 d toasts E).
    + now rewrite (calculateResults_invalid64 d toasts E Hinv).
  - split.
    + intro H. destruct (0 <? Dashboard64.contributionMargin st) eqn:Hm; [|reflexivity].
      now destruct (useEffect_recalculate_computed_is_not_reset fuel st toasts Hm).
    + apply useEffect_recalculate_resets.
Qed.

Lemma rejection_policy_witness :
  snd (Index64.calculateResults Examples64.zero_units []) = None
  /\ (Dashboard64.useEffect_recalculate 100 Examples64.state_rounded_margin []
      = Some (Dashboard64.resetOutputs Examples64.state_rounded_margin, [])
      <-> (0 <? Dashboard64.contributionMargin Examples64.state_rounded_margin)
          = false).
Proof.
  apply (rejection_policy Examples64.zero_units Examples64.state_rounded_margin [] 100).
  vm_compute. reflexivity.
Defined.

(** C2, the claim as worded: with zero units (fixed cost 10000, variable
    cost 15, price 25, tax rate 30) the dashboard writes results, ten
    rows and twenty-one points. *)
Lemma dashboard_accepts_zero_units :
  exists out : Dashboard64.State,
    Dashboard64.useEffect_recalculate 100 Examples64.state_zero_units []
    = Some (out, [])
    /\ (Dashboard64.units (Dashboard64.formData Examples64.state_zero_units) <=? 0)
       = true
    /\ Dashboard64.breakEvenUnits (Dashboard64.results out) = 1000
    /\ List.length (Dashboard64.tableData out) = 10%nat
    /\ List.length (Dashboard64.chartData out) = 21%nat.
Proof. eexists. split; [vm_compute; reflexivity|]. by_computation. Qed.

(** The margin that is zero before rounding: price 25 raised by 12
    percent against a variable cost of 28 is a positive margin in
    binary64, and the dashboard computes. *)
Example rounded_margin_is_computed :
  exists out : Dashboard64.State,
    Dashboard64.useEffect_recalculate 100 Examples64.state_rounded_margin []
    = Some (out, [])
    /\ (0 <? Dashboard64.contributionMargin Examples64.state_rounded_margin) = true
    /\ Dashboard64.breakEvenUnits (Dashboard64.results out) = 2.81474976710656e+18
    /\ List.length (Dashboard64.tableData out) = 11%nat.
Proof. eexists. split; [vm_compute; reflexivity|]. by_computation. Qed.

(** C6 (as the code has it): the outputs of the dashboard's
    recalculation (results, rows, points) are a function of the form and
    the sliders alone -- the earlier outputs, the toasts and the fuel of
    the loops do not enter; it writes nothing else (form, sliders and
    toasts are as before) and run again on its output it writes the same
    output.  The value the basic calculator returns does not depend on
    the toasts shown before; it adds exactly one warning toast when
    [sellingPricePerUnit <= variableCostPerUnit] and none otherwise. *)
Theorem deterministic_with_margin_toast
        (d : Index64.FinancialData) (st1 st2 out1 out2 : Dashboard64.State)
        (toasts1 toasts2 log1 log2 : list Index.Toast) (fuel1 fuel2 : nat) :
  Dashboard64.formData st1 = Dashboard64.formData st2 ->
  Dashboard64.sensitivityChanges st1 = Dashboard64.sensitivityChanges st2 ->
  Dashboard64.useEffect_recalculate fuel1 st1 toasts1 = Some (out1, log1) ->
  Dashboard64.useEffect_recalculate fuel2 st2 toasts2 = Some (out2, log2) ->
  (Dashboard64.results out1 = Dashboard64.results out2
   /\ Dashboard64.tableData out1 = Dashboard64.tableData out2
   /\ Dashboard64.chartData out1 = Dashboard64.chartData out2)
  /\ (Dashboard64.formData out1 = Dashboard64.formData st1
      /\ Dashboard64.sensitivityChanges out1 = Dashboard64.sensitivityChanges st1
      /\ log1 = toasts1)
  /\ Dashboard64.useEffect_recalculate fuel1 out1 log1 = Some (out1, log1)
  /\ snd (Index64.calculateResults d toasts1)
     = snd (Index64.calculateResults d toasts2)
  /\ fst (Index64.calculateResults d toasts1)
     = toasts1
         ++ (if Index64.sellingPricePerUnit d <=? Index64.variableCostPerUnit d
             then [Index.warningToast] else []).
Proof.
  intros Hf Hs H1 H2. split; [|split; [|split; [|split]]].
  - exact (useEffect_recalculate_reads_parameters _ _ _ _ _ _ _ _ _ _ Hf Hs H1 H2).
  - exact (useEffect_recalculate_frame _ _ _ _ _ H1).
  - exact (useEffect_recalculate_idempotent _ _ _ _ _ H1).
  - unfold Index64.calculateResults. cbv zeta.
    destruct (_ <=? _); [reflexivity|]. destruct (_ || _); reflexivity.
  - unfold Index64.calculateResults. cbv zeta.
    destruct (_ <=? _); [reflexivity|].
    destruct (_ || _); cbn [fst]; now rewrite app_nil_r.
Qed.

Lemma deterministic_with_margin_toast_witness :
  exists out1 out2 : Dashboard64.State,
    Dashboard64.useEffect_recalculate 100 Examples64.state_990_units []
    = Some (out1, [])
    /\ Dashboard64.useEffect_recalculate 200 out1 [Index.warningToast]
       = Some (out2, [Index.warningToast])
    /\ Dashboard64.results out1 = Dashboard64.results out2
    /\ Dashboard64.tableData out1 = Dashboard64.tableData out2
    /\ Dashboard64.chartData out1 = Dashboard64.chartData out2
    /\ fst (Index64.calculateResults Examples64.zero_margin [])
       = [Index.warningToast].
Proof.
  eexists. eexists.
  split; [vm_compute; reflexivity|]. split; [vm_compute; reflexivity|].
  match goal with
  | |- Dashboard64.results ?o1 = Dashboard64.results ?o2 /\ _ =>
      destruct (deterministic_with_margin_toast
                  Examples64.zero_margin Examples64.state_990_units o1 o1 o2
                  [] [Index.warningToast] [] [Index.warningToast] 100 200)
        as ((Hr & Ht & Hc) & _ & _ & _ & Htoast)
  end; try (vm_compute; reflexivity).
  repeat split; assumption.
Defined.

(** C6, the claim as worded: with variable cost and price both 35 the
    basic calculator shows a toast from inside [calculateResults]. *)
Lemma calculator_emits_toast :
  fst (Index64.calculateResults Examples64.zero_margin []) = [Index.warningToast]
  /\ snd (Index64.calculateResults Examples64.zero_margin []) = None.
Proof. by_computation. Qed.

(** C7 (where the code departs from it): with 1.5e308 units (fixed cost
    10000, variable cost 15, price 25, tax rate 30, sliders at rest) every
    precondition holds and the margin is positive, but 1.2 times the units
    overflows: the range of the chart and its step are [Infinity], the
    test [quantity <= chartRange] of the grid loop never fails, and the
    recalculation does not complete, whatever the fuel. *)
Theorem chart_loop_never_ends_at_huge_units :
  ((Dashboard64.units (Dashboard64.formData Examples64.state_huge_units) <=? 0)
   = false
   /\ (Dashboard64.fixedCost (Dashboard64.formData Examples64.state_huge_units) <? 0)
      = false
   /\ (Dashboard64.variableCostPerUnit
         (Dashboard64.formData Examples64.state_huge_units) <? 0) = false
   /\ (Dashboard64.sellingPricePerUnit
         (Dashboard64.formData Examples64.state_huge_units) <=? 0) = false
   /\ (0 <? Dashboard64.contributionMargin Examples64.state_huge_units) = true)
  /\ Dashboard64.chartRangeOf 1.5e308 1000 = infinity
  /\ Dashboard64.stepOf infinity = infinity
  /\ (forall (fuel : nat) (toasts : list Index.Toast),
         Dashboard64.useEffect_recalculate fuel Examples64.state_huge_units toasts
         = None).
Proof.
  split; [by_computation|]. split; [by_computation|]. split; [by_computation|].
  apply useEffect_recalculate_never_ends; vm_compute; reflexivity.
Qed.

(** The chart of 990 units in binary64: a grid of 60 up to 1200, the
    units point forced in and sorted between 960 and 1020. *)
Example chart_of_990_units :
  exists out : Dashboard64.State,
    Dashboard64.useEffect_recalculate 100 Examples64.state_990_units []
    = Some (out, [])
    /\ map Dashboard64.chart_cantidad (Dashboard64.chartData out)
       = [0; 60; 120; 180; 240; 300; 360; 420; 480; 540; 600; 660; 720; 780;
          840; 900; 960; 990; 1020; 1080; 1140; 1200].
Proof. eexists. split; [vm_compute; reflexivity|]. by_computation. Qed.


(** C10 (as the code has it): when the basic calculator returns a
    record and neither the units nor the price is [NaN], the units and
    the price are greater than zero, so the divisor of
    [fixedCostPerUnit] and [totalCostPerUnit] is not zero; these two and
    the revenue are the binary64 quotients and product of the code.
    (That the revenue is positive and the quotients finite does not
    follow: see the examples next.) *)
Theorem returned_results_have_safe_divisions
        (d : Index64.FinancialData) (r : Index64.CalculationResults)
        (toasts : list Index.Toast) :
  snd (Index64.calculateResults d toasts) = Some r ->
  is_nan (Index64.units d) = false ->
  is_nan (Index64.sellingPricePerUnit d) = false ->
  (0 <? Index64.units d) = true
  /\ (0 <? Index64.sellingPricePerUnit d) = true
  /\ (Index64.units d =? 0) = false
  /\ Index64.fixedCostPerUnit r = Index64.fixedCost d / Index64.units d
  /\ Index64.totalCostPerUnit r = Index64.totalCost r / Index64.units d
  /\ Index64.salesRevenue r = Index64.sellingPricePerUnit d * Index64.units d
  /\ Index64.profitMargin r
     = Index64.profitOrLoss r
       / (Index64.sellingPricePerUnit d * Index64.units d) * 100.
Proof.
  intros Hret Hu Hp.
  destruct (calculateResults_returns64 d toasts r Hret) as (_ & Hinv & ->).
  unfold Index64.invalidInput in Hinv.
  apply orb_false_iff in Hinv. destruct Hinv as [Hinv Hprice].
  apply orb_false_iff in Hinv. destruct Hinv as [Hinv _].
  apply orb_false_iff in Hinv. destruct Hinv as [Hunits _].
  destruct (not_le_zero_is_positive _ Hunits Hu) as [Hu1 Hu2].
  destruct (not_le_zero_is_positive _ Hprice Hp) as [Hp1 _].
  unfold Index64.profitMargin.
  cbn [Index64.fixedCostPerUnit Index64.totalCostPerUnit Index64.totalCost
       Index64.salesRevenue Index64.profitOrLoss].
  repeat split; assumption.
Qed.

Lemma returned_results_have_safe_divisions_witness :
  exists r : Index64.CalculationResults,
    snd (Index64.calculateResults Examples64.initialData []) = Some r
    /\ (0 <? Index64.units Examples64.initialData) = true
    /\ (Index64.units Examples64.initialData =? 0) = false
    /\ Index64.fixedCostPerUnit r
       = Index64.fixedCost Examples64.initialData
         / Index64.units Examples64.initialData
    /\ Index64.totalCostPerUnit r
       = Index64.totalCost r / Index64.units Examples64.initialData.
Proof.
  eexists. split; [vm_compute; reflexivity|].
  match goal with
  | |- context [Index64.fixedCostPerUnit ?r] =>
      destruct (returned_results_have_safe_divisions Examples64.initialData r [])
        as (Hu & _ & Hz & Hf & Ht & _)
  end; try (vm_compute; reflexivity).
  repeat apply conj; assumption.
Defined.

(** C10, the claim as worded: on accepted records the revenue can be
    zero and a quotient infinite.  With units 1e-200 and price 1e-200 the
    product underflows: the revenue is 0 and the profit margin 0/0 is
    [NaN].  With fixed cost 1e300 and units 1e-10 the fixed cost per unit
    is [Infinity]. *)
Lemma accepted_record_with_unsafe_division :
  exists r r' : Index64.CalculationResults,
    snd (Index64.calculateResults Examples64.tiny_units_and_price []) = Some r
    /\ (0 <? Index64.units Examples64.tiny_units_and_price) = true
    /\ (0 <? Index64.sellingPricePerUnit Examples64.tiny_units_and_price) = true
    /\ Index64.salesRevenue r = 0
    /\ is_nan (Index64.profitMargin r) = true
    /\ snd (Index64.calculateResults Examples64.huge_fixed_cost_per_unit [])
       = Some r'
    /\ Index64.fixedCostPerUnit r' = infinity.
Proof.
  eexists. eexists.
  split; [reflexivity|].
  split; [by_computation|]. split; [by_computation|].
  split; [by_computation|]. split; [by_computation|].
  split; [vm_compute; reflexivity|]. by_computation.
Qed.

End ClaimsBinary64.

(** * Further properties of the code *)

(** ** Arithmetic used below *)

Section Quotients.



End Quotients.

(** ** The results panel of the basic calculator *)

Section ResultsPanel.
Import JS Index.





(** The results table is rendered exactly for the accepted records:
    positive units and price, non-negative costs, and a price above the
    variable cost; for every other record the page shows the warning
    banner instead. *)
Theorem results_rendered_iff_accepted (d : FinancialData) :
  isValidData d = true <-> Spec.accepted_basic d.
Proof.
  unfold isValidData. split.
  - destruct (returned d) as [r|] eqn:E; [|discriminate].
    intros _. exact (returned_accepted d r E).
  - intro Hacc. unfold returned.
    now rewrite (calculateResults_accepts d Hacc).
Qed.

End ResultsPanel.

(** ** The units field of the basic calculator, over binary64 *)

Section ResultsPanel64.
Import Binary64.
Local Open Scope float_scope.

(** Changing the units field to another quantity that passes the test
    on the units leaves the break-even point as it is: the record is
    still accepted and its break-even quantity and revenue are the same
    binary64 numbers. *)
Theorem units_do_not_move_break_even
        (d : Index64.FinancialData) (r : Index64.CalculationResults)
        (units' : float) (toasts : list Index.Toast) :
  snd (Index64.calculateResults d toasts) = Some r ->
  (units' <=? 0) = false ->
  exists r' : Index64.CalculationResults,
    Index64.calculateResults (Index64.handleInputChange Index.units_field units' d)
                             toasts
    = (toasts, Some r')
    /\ Index64.breakEvenUnits r' = Index64.breakEvenUnits r
    /\ Index64.breakEvenRevenue r' = Index64.breakEvenRevenue r.
Proof.
  intros Hret Hunits.
  destruct (calculateResults_returns64 d toasts r Hret) as (Hm & Hinv & ->).
  unfold Index64.invalidInput in Hinv.
  apply orb_false_iff in Hinv. destruct Hinv as [Hinv Hprice].
  apply orb_false_iff in Hinv. destruct Hinv as [Hinv Hvar].
  apply orb_false_iff in Hinv. destruct Hinv as [_ Hfixed].
  eexists. unfold Index64.calculateResults. cbv zeta.
  cbn [Index64.handleInputChange Index64.units Index64.fixedCost
       Index64.variableCostPerUnit Index64.sellingPricePerUnit].
  rewrite Hm, Hunits, Hfixed, Hvar, Hprice. cbn [orb].
  split; [reflexivity|]. split; reflexivity.
Qed.

Lemma units_do_not_move_break_even_witness :
  exists r r' : Index64.CalculationResults,
    snd (Index64.calculateResults Examples64.initialData []) = Some r
    /\ Index64.calculateResults
         (Index64.handleInputChange Index.units_field 4000 Examples64.initialData) []
       = ([], Some r')
    /\ Index64.breakEvenUnits r' = Index64.breakEvenUnits r
    /\ Index64.breakEvenRevenue r' = Index64.breakEvenRevenue r.
Proof.
  destruct (units_do_not_move_break_even
              Examples64.initialData
              (Index64.mkCalculationResults 50 20000 70000 70 35000 (-35000)
                 (50000 / 15) (50000 / 15 * 35))
              4000 [])
    as (r' & Hr' & Hbe & Hber); try (vm_compute; reflexivity).
  eexists. exists r'. split; [vm_compute; reflexivity|].
  split; [exact Hr'|]. split; [exact Hbe | exact Hber].
Defined.

End ResultsPanel64.

(** ** The dashboard's view and its table *)

Section DashboardView.
Import JS AnalysisDashboard.




End DashboardView.

(** ** The dashboard's chart *)

Section DashboardChart.
Import JS AnalysisDashboard.












End DashboardChart.

(** ** The range of the chart *)

Section DashboardRange.
Import JS AnalysisDashboard.





End DashboardRange.

(** ** Tax and the sensitivity sliders *)

Section DashboardSensitivity.
Import JS AnalysisDashboard.













End DashboardSensitivity.

(** ** The effect as a whole, and the text limit *)

Section DashboardWhole.
Import JS AnalysisDashboard.





Lemma append_empty (s : string) : (s ++ "")%string = s.
Proof. induction s as [|c s IH]; simpl; [reflexivity | now rewrite IH]. Qed.

Lemma length_append (s t : string) :
  String.length (s ++ t) = (String.length s + String.length t)%nat.
Proof. induction s as [|c s IH]; simpl; [reflexivity | now rewrite IH]. Qed.

Lemma substring_append (s t : string) :
  substring 0 (String.length s) (s ++ t) = s.
Proof.
  induction s as [|c s IH]; simpl.
  - destruct t; reflexivity.
  - now rewrite IH.
Qed.

(** Only the first 12 characters of the text count: whatever follows
    them never changes the number the dashboard stores. *)
Theorem text_beyond_12_characters_is_ignored (value rest : string) :
  String.length value = 12%nat ->
  numericValue (value ++ rest) = numericValue value.
Proof.
  intro Hlen. unfold numericValue, limit12.
  rewrite length_append, Hlen.
  replace (12 <? 12)%nat with false by reflexivity.
  destruct (12 <? 12 + String.length rest)%nat eqn:E.
  - assert (Hcut : substring 0 12 (value ++ rest) = value)
      by (rewrite <- Hlen; apply substring_append).
    now rewrite Hcut.
  - apply Nat.ltb_ge in E.
    destruct rest as [|c rest]; [|simpl in E; lia].
    now rewrite append_empty.
Qed.

Lemma text_beyond_12_characters_is_ignored_witness :
  numericValue "1234567890123456" = numericValue "123456789012"
  /\ numericValue "123456789012" = Finite 123456789012.
Proof.
  split.
  - apply (text_beyond_12_characters_is_ignored "123456789012" "3456").
    reflexivity.
  - vm_compute. reflexivity.
Defined.

End DashboardWhole.

